(** * A bookstore over one JSON blob: [fast_api_sample.py]

    Shallow embedding of the [Book] model and of the [BookStore] class
    (the in-memory dict of books, loaded from and rewritten to one S3
    object), followed by the properties of the store's operations.

    Conventions of the embedding.
    - Plain Python data (what [to_dict] builds, what [json.loads] returns,
      what the methods return) is the tree type [value].
    - A [Book] is an object: the program holds references to it, and
      [add_book] assigns to a field of the object it was given. The objects
      live in a heap, a finite map from references to their fields; the
      dict of the store and the callers hold references.
    - [self.books] is a Python [dict]: insertion ordered, unique keys. It is
      an association list in insertion order, with the three dict primitives
      the code uses ([in]/[d[k]], [d[k] = v], [del d[k]]).
    - A method is a function from the world before the call (the store
      object, the S3 bucket and the heap) to its outcome and the world after
      it. An outcome is [Return v] or [Raise e]; the world after a raise
      keeps every mutation made before it, as in Python.
    - What the environment decides is an argument of the call: the token
      [uuid4().hex] returns, and for each S3 request an optional fault (what
      the request raises instead of being served).
    - Library code is a parameter: the JSON text layer ([json.dumps],
      [json.loads], UTF-8) and pydantic's conversion of constructor
      arguments to [str] and [float]. *)

From Stdlib Require Import ZArith List String Ascii Bool Lia.
From Stdlib Require Import Floats.PrimFloat.
From stdpp Require Import gmap strings list pretty.

Set Warnings "-register-all".
Open Scope string_scope.
Open Scope list_scope.
Open Scope Z_scope.

(** ** Python values, exceptions, outcomes *)

(** The plain data the program handles: [None], [bool], [int], [float],
    [str], [list] and [dict] with string keys (in key order). *)
Inductive value : Type :=
| VNone
| VBool (b : bool)
| VInt (n : Z)
| VFloat (f : float)
| VStr (s : string)
| VList (items : list value)
| VDict (fields : list (string * value)).

(** The exceptions that occur: fastapi's [HTTPException], botocore's
    [ClientError] with its [e.response["Error"]["Code"]], and any other
    Python exception, named by its class. *)
Inductive exn : Type :=
| HTTPException (status_code : Z) (detail : string)
| ClientError (code : string)
| PyError (cls : string).

Inductive result (A : Type) : Type :=
| Return (a : A)
| Raise (e : exn).
Arguments Return {A} a.
Arguments Raise {A} e.

Definition rbind {A B : Type} (r : result A) (k : A -> result B) : result B :=
  match r with
  | Return a => k a
  | Raise e => Raise e
  end.

Declare Scope result_scope.
Delimit Scope result_scope with result.
Notation "'try!' x := r 'in' k" := (rbind r (fun x => k))
  (at level 10, x name, r at level 100, k at level 200) : result_scope.

Definition is_return {A : Type} (r : result A) : bool :=
  match r with Return _ => true | Raise _ => false end.

(** [f"{n}"] for an [int]. *)
Definition str_of_int (n : Z) : string := pretty n.

(** ** The [Book] model *)

(** [Literal["fiction", "romance", "comedy", "adventure", "self-improvement", "drama"]] *)
Inductive Genre : Type :=
| fiction | romance | comedy | adventure | self_improvement | drama.

Definition genre_str (g : Genre) : string :=
  match g with
  | fiction => "fiction"
  | romance => "romance"
  | comedy => "comedy"
  | adventure => "adventure"
  | self_improvement => "self-improvement"
  | drama => "drama"
  end.

Definition genre_of_str (s : string) : option Genre :=
  if String.eqb s "fiction" then Some fiction
  else if String.eqb s "romance" then Some romance
  else if String.eqb s "comedy" then Some comedy
  else if String.eqb s "adventure" then Some adventure
  else if String.eqb s "self-improvement" then Some self_improvement
  else if String.eqb s "drama" then Some drama
  else None.

(** The fields of a [Book] object. *)
Record Book : Type := mkBook {
  name : string;
  genre : Genre;
  price : float;
  book_id : option string
}.

(** The fields after [book.book_id = tok]. *)
Definition set_book_id (tok : string) (b : Book) : Book :=
  {| name := name b; genre := genre b; price := price b; book_id := Some tok |}.

Definition value_of_id (i : option string) : value :=
  match i with
  | Some s => VStr s
  | None => VNone
  end.

(** [Book.to_dict], on the fields the object has when it is called. *)
Definition to_dict (b : Book) : value :=
  VDict [ ("name", VStr (name b));
          ("genre", VStr (genre_str (genre b)));
          ("price", VFloat (price b));
          ("book_id", value_of_id (book_id b)) ].

(** The field default [book_id: Optional[str] = uuid4().hex]: the call is
    part of the class body, so it runs once, when the class statement is
    executed; [class_token] is the token that one call returned. *)
Definition default_book_id (class_token : string) : option string :=
  Some class_token.

(** pydantic's conversion of a constructor argument to the annotated type
    ([None] stands for a validation error). A value that has the annotated
    type is taken as it is. Which values of another type are converted (an
    [int] or a numeric string to a [float], say) depends on the library and
    its version, so these two conversions are parameters. *)
Record pydantic : Type := mkPydantic {
  coerce_str : value -> option string;
  coerce_float : value -> option float
}.

Definition to_str (py : pydantic) (v : value) : option string :=
  match v with
  | VStr s => Some s
  | _ => coerce_str py v
  end.

Definition to_float (py : pydantic) (v : value) : option float :=
  match v with
  | VFloat p => Some p
  | _ => coerce_float py v
  end.

(** A [Literal] of strings admits a value only if it equals one of them. *)
Definition to_genre (v : value) : option Genre :=
  match v with
  | VStr s => genre_of_str s
  | _ => None
  end.

(** [Optional[str]]: [None], or what [str] admits. *)
Definition to_optional_str (py : pydantic) (v : value) : option (option string) :=
  match v with
  | VNone => Some None
  | _ => option_map Some (to_str py v)
  end.

(** [Book(name=..., genre=..., price=..., [book_id=...])]: the fields of
    the object built, or the [ValidationError] pydantic raises when an
    argument is not admitted. [book_id_arg = None] is the call without that
    keyword. *)
Definition Book_init (py : pydantic) (class_token : string)
    (name_arg genre_arg price_arg : value) (book_id_arg : option value) : result Book :=
  match to_str py name_arg, to_genre genre_arg, to_float py price_arg,
        match book_id_arg with
        | None => Some (default_book_id class_token)
        | Some v => to_optional_str py v
        end
  with
  | Some n, Some g, Some p, Some i => Return (mkBook n g p i)
  | _, _, _, _ => Raise (PyError "ValidationError")
  end.

(** ** Objects *)

(** The [Book] objects of the process, by reference. References are made
    by constructor calls, so a reference the program holds names an object;
    the total lookup [h !!! r] reads its fields. *)
Abbreviation Heap := (gmap nat Book).

Global Instance Book_inhabited : Inhabited Book :=
  populate (mkBook "" fiction 0%float None).

(** A reference no object has yet. *)
Definition fresh_ref (h : Heap) : nat := fresh (dom h).

(** ** Insertion-ordered dict *)

(** Keys of [self.books]: [add_book] uses a [str], [_load_books] uses
    [book.book_id], an [Optional[str]]. *)
Definition key : Type := option string.

Definition key_eqb (a b : key) : bool := bool_decide (a = b).

Section Dict.
Context {V : Type}.

(** [d[k]] ([None] stands for [KeyError]); [k in d] is [dict_get k d <> None]. *)
Fixpoint dict_get (k : key) (d : list (key * V)) : option V :=
  match d with
  | [] => None
  | (k', v) :: rest => if key_eqb k k' then Some v else dict_get k rest
  end.

Definition dict_in (k : key) (d : list (key * V)) : bool :=
  match dict_get k d with Some _ => true | None => false end.

(** [d[k] = v]: an existing key keeps its position, a new key goes last. *)
Fixpoint dict_set (k : key) (v : V) (d : list (key * V)) : list (key * V) :=
  match d with
  | [] => [(k, v)]
  | (k', v') :: rest =>
      if key_eqb k k' then (k, v) :: rest else (k', v') :: dict_set k v rest
  end.

(** [del d[k]], for a key that is present. *)
Fixpoint dict_del (k : key) (d : list (key * V)) : list (key * V) :=
  match d with
  | [] => []
  | (k', v') :: rest =>
      if key_eqb k k' then rest else (k', v') :: dict_del k rest
  end.

Definition dict_keys (d : list (key * V)) : list key := List.map fst d.
Definition dict_values (d : list (key * V)) : list V := List.map snd d.

End Dict.

(** [v[k]] on plain data: a dict gives the field or [KeyError]; a string
    subscript on anything else is a [TypeError]. *)
Fixpoint assoc (k : string) (fields : list (string * value)) : option value :=
  match fields with
  | [] => None
  | (k', v) :: rest => if String.eqb k k' then Some v else assoc k rest
  end.

Definition getitem (v : value) (k : string) : result value :=
  match v with
  | VDict fields =>
      match assoc k fields with
      | Some x => Return x
      | None => Raise (PyError "KeyError")
      end
  | _ => Raise (PyError "TypeError")
  end.

(** [for x in v]: the elements of a list, the keys of a dict, the
    characters of a string; the other values are not iterable. *)
Definition py_iter (v : value) : result (list value) :=
  match v with
  | VList items => Return items
  | VDict fields => Return (List.map (fun kv => VStr (fst kv)) fields)
  | VStr s => Return (List.map (fun c => VStr (String c EmptyString)) (list_ascii_of_string s))
  | _ => Raise (PyError "TypeError")
  end.

(** The books a dict of references shows: each key with the fields its
    object has now. *)
Definition stored (h : Heap) (d : list (key * nat)) : list (key * Book) :=
  List.map (fun e => (fst e, h !!! snd e)) d.

(** ** The S3 bucket *)

Definition BUCKET : string := "fast-api-storage".
Definition BOOKS_FILE : string := "books.json".

(** Reading a body: [Body.read().decode('utf-8')] followed by
    [json.loads]. *)
Inductive decoded : Type :=
| Parsed (data : value)
| NotUtf8
| NotJson.

Section Store.

(** The bytes of a stored object. [json_dumps] is [json.dumps] followed by
    the UTF-8 encoding of the request body; [json_loads] reads a body
    back. *)
Context {blob : Type}.
Variable json_dumps : value -> blob.
Variable json_loads : blob -> decoded.
(** pydantic's conversions, and the token the class body of [Book] drew
    for the [book_id] default. *)
Variable py : pydantic.
Variable class_token : string.

(** The requests the program sends, in the order it sends them. *)
Inductive s3_call : Type :=
| HeadObject (Bucket Key : string)
| GetObject (Bucket Key : string)
| PutObject (Bucket Key : string) (Body : blob).

(** The objects of the bucket and the log of requests received. *)
Record S3 : Type := mkS3 {
  objects : gmap string blob;
  calls : list s3_call
}.

Definition log_call (c : s3_call) (s : S3) : S3 :=
  {| objects := objects s; calls := calls s ++ [c] |}.

(** What a request can raise instead of being served: a
    [botocore.exceptions.ClientError] with its error code, or an exception
    of another class (a connection error, a timeout). *)
Inductive s3_fault : Type :=
| ClientFault (code : string)
| OtherFault (cls : string).

Definition exn_of_fault (f : s3_fault) : exn :=
  match f with
  | ClientFault code => ClientError code
  | OtherFault cls => PyError cls
  end.

(** A request either fails with the injected fault or is served from the
    bucket: a missing key answers [HEAD] with code 404 and [GET] with
    [NoSuchKey]; a served [PUT] replaces the object. *)
Definition head_object (fault : option s3_fault) (Key : string) (s : S3) : result unit * S3 :=
  let s' := log_call (HeadObject BUCKET Key) s in
  match fault with
  | Some f => (Raise (exn_of_fault f), s')
  | None =>
      match objects s !! Key with
      | Some _ => (Return tt, s')
      | None => (Raise (ClientError "404"), s')
      end
  end.

Definition get_object (fault : option s3_fault) (Key : string) (s : S3) : result blob * S3 :=
  let s' := log_call (GetObject BUCKET Key) s in
  match fault with
  | Some f => (Raise (exn_of_fault f), s')
  | None =>
      match objects s !! Key with
      | Some body => (Return body, s')
      | None => (Raise (ClientError "NoSuchKey"), s')
      end
  end.

Definition put_object (fault : option s3_fault) (Key : string) (Body : blob) (s : S3) : result unit * S3 :=
  match fault with
  | Some f => (Raise (exn_of_fault f), log_call (PutObject BUCKET Key Body) s)
  | None =>
      (Return tt,
       {| objects := <[Key := Body]> (objects s);
          calls := calls s ++ [PutObject BUCKET Key Body] |})
  end.

(** ** [BookStore] *)

(** The store object: its file and its dict from ids to [Book] objects. *)
Record BookStore : Type := mkBookStore {
  book_file : string;
  books : list (key * nat)
}.

Record world : Type := mkWorld {
  self : BookStore;
  s3 : S3;
  heap : Heap
}.

(** A method: outcome and world after the call. *)
Definition M (A : Type) : Type := world -> result A * world.

Definition ret {A : Type} (a : A) : M A := fun w => (Return a, w).
Definition raise {A : Type} (e : exn) : M A := fun w => (Raise e, w).
Definition bind {A B : Type} (m : M A) (k : A -> M B) : M B :=
  fun w =>
    match m w with
    | (Return a, w') => k a w'
    | (Raise e, w') => (Raise e, w')
    end.

(** [self.books = d] *)
Definition set_books (d : list (key * nat)) : M unit :=
  fun w =>
    (Return tt,
     {| self := {| book_file := book_file (self w); books := d |};
        s3 := s3 w; heap := heap w |}).

(** [book.book_id = tok], on the object [book] refers to. *)
Definition assign_book_id (book : nat) (tok : string) : M unit :=
  fun w =>
    (Return tt,
     {| self := self w; s3 := s3 w;
        heap := <[book := set_book_id tok (heap w !!! book)]> (heap w) |}).

(** [_save_books]: one [put_object] of the whole collection; a
    [ClientError] with code ["404"] is printed and dropped, every other
    exception leaves the method. *)
Definition _save_books (fault : option s3_fault) : M unit :=
  fun w =>
    let body :=
      json_dumps
        (VList (List.map (fun book => to_dict (heap w !!! book))
                  (dict_values (books (self w))))) in
    let '(r, s') := put_object fault (book_file (self w)) body (s3 w) in
    let w' := {| self := self w; s3 := s'; heap := heap w |} in
    match r with
    | Return _ => (Return tt, w')
    | Raise (ClientError code) =>
        if String.eqb code "404" then (Return tt, w') else (Raise (ClientError code), w')
    | Raise e => (Raise e, w')
    end.

(** The [except botocore.exceptions.ClientError] clause of [_load_books];
    [loaded] is the local [books] when the exception arrives. *)
Definition load_except (e : exn) (loaded : list (key * nat)) : result (list (key * nat)) :=
  match e with
  | ClientError code => if String.eqb code "404" then Return loaded else Raise e
  | _ => Raise e
  end.

(** The constructor call in one turn of [for book_data in data]: the
    fields of the new object. *)
Definition load_book (book_data : value) : result Book :=
  (try! n := getitem book_data "name" in
   try! g := getitem book_data "genre" in
   try! p := getitem book_data "price" in
   try! i := getitem book_data "book_id" in
   Book_init py class_token n g p (Some i))%result.

(** The loop: each record makes a new object, stored under the [book_id]
    the object has. The result is the outcome, the local [books] built so
    far and the heap. *)
Fixpoint load_loop (data : list value) (loaded : list (key * nat)) (h : Heap)
    : result unit * list (key * nat) * Heap :=
  match data with
  | [] => (Return tt, loaded, h)
  | book_data :: rest =>
      match load_book book_data with
      | Return fields =>
          let book := fresh_ref h in
          load_loop rest (dict_set (book_id fields) book loaded) (<[book := fields]> h)
      | Raise e => (Raise e, loaded, h)
      end
  end.

(** The fields the loop stores, key by key, the objects left aside: what
    [stored] shows of the dict the loop builds. *)
Fixpoint load_fields (data : list value) (loaded : list (key * Book))
    : result unit * list (key * Book) :=
  match data with
  | [] => (Return tt, loaded)
  | book_data :: rest =>
      match load_book book_data with
      | Return fields => load_fields rest (dict_set (book_id fields) fields loaded)
      | Raise e => (Raise e, loaded)
      end
  end.

(** [_load_books], with the faults of its two requests. *)
Definition _load_books (head_fault get_fault : option s3_fault) (file : string)
    (s : S3) (h : Heap) : result (list (key * nat)) * S3 * Heap :=
  let loaded := [] in
  let '(r1, s1) := head_object head_fault file s in
  match r1 with
  | Raise e => (load_except e loaded, s1, h)
  | Return _ =>
      let '(r2, s2) := get_object get_fault file s1 in
      match r2 with
      | Raise e => (load_except e loaded, s2, h)
      | Return body =>
          match json_loads body with
          | NotUtf8 => (load_except (PyError "UnicodeDecodeError") loaded, s2, h)
          | NotJson => (load_except (PyError "JSONDecodeError") loaded, s2, h)
          | Parsed data =>
              match py_iter data with
              | Raise e => (load_except e loaded, s2, h)
              | Return items =>
                  match load_loop items loaded h with
                  | (Return _, loaded', h') => (Return loaded', s2, h')
                  | (Raise e, loaded', h') => (load_except e loaded', s2, h')
                  end
              end
          end
      end
  end.

(** [BookStore(book_file)]: the new store object, the bucket and the heap
    after the call. *)
Definition __init__ (head_fault get_fault : option s3_fault) (file : string)
    (s : S3) (h : Heap) : result BookStore * S3 * Heap :=
  match _load_books head_fault get_fault file s h with
  | (Return d, s', h') => (Return {| book_file := file; books := d |}, s', h')
  | (Raise e, s', h') => (Raise e, s', h')
  end.

Definition not_found (id : string) : exn :=
  HTTPException 404 ("Book ID " +:+ id +:+ " not found in database.").

(** [get_all_books]: the list of the [Book] objects. *)
Definition get_all_books : M (list nat) :=
  fun w => (Return (dict_values (books (self w))), w).

Definition get_book_by_id (id : string) : M value :=
  fun w =>
    match dict_get (Some id) (books (self w)) with
    | Some book => (Return (to_dict (heap w !!! book)), w)
    | None => (Raise (not_found id), w)
    end.

Definition get_book_by_index (index : Z) : M value :=
  fun w =>
    let n := Z.of_nat (length (books (self w))) in
    if (0 <=? index) && (index <? n) then
      match nth_error (dict_values (books (self w))) (Z.to_nat index) with
      | Some book => (Return (to_dict (heap w !!! book)), w)
      | None => (Raise (PyError "IndexError"), w)
      end
    else
      (Raise (HTTPException 404
         ("book index " +:+ str_of_int index +:+ " out of range (" +:+ str_of_int n +:+ ")")), w).

(** [add_book(book)]; [tok] is what [uuid4().hex] returns in this call.
    The assignment is to the caller's object, and that object is what the
    dict then holds. *)
Definition add_book (tok : string) (fault : option s3_fault) (book : nat) : M value :=
  bind (assign_book_id book tok) (fun _ =>
  bind (fun w => set_books (dict_set (book_id (heap w !!! book)) book (books (self w))) w) (fun _ =>
  bind (_save_books fault) (fun _ =>
  fun w => (Return (VDict [("book-id", value_of_id (book_id (heap w !!! book)))]), w)))).

Definition update_book (fault : option s3_fault) (id : string) (new_book : nat) : M value :=
  fun w =>
    if dict_in (Some id) (books (self w)) then
      bind (set_books (dict_set (Some id) new_book (books (self w)))) (fun _ =>
      bind (_save_books fault) (fun _ =>
      fun w' =>
        (Return (VDict [("book", to_dict (heap w' !!! new_book)); ("book-id", VStr id)]), w'))) w
    else
      (Raise (not_found id), w).

Definition delete_book (fault : option s3_fault) (id : string) : M value :=
  fun w =>
    if dict_in (Some id) (books (self w)) then
      bind (set_books (dict_del (Some id) (books (self w)))) (fun _ =>
      bind (_save_books fault) (fun _ =>
      ret (VDict [("message", VStr "The book has been deleted")]))) w
    else
      (Raise (not_found id), w).

(** ** The route that picks a book *)

(** [random.choice(seq)]: [IndexError] on an empty sequence, otherwise the
    element at a position below [len(seq)]; [r] is the raw draw of the
    generator, reduced below the length. *)
Definition random_choice {A : Type} (r : nat) (seq : list A) : result A :=
  match seq with
  | [] => Raise (PyError "IndexError")
  | _ :: _ =>
      match nth_error seq (r mod List.length seq) with
      | Some x => Return x
      | None => Raise (PyError "IndexError")
      end
  end.

(** [random_book]: [random.choice(bookstore.get_all_books())] *)
Definition random_book (r : nat) : M nat :=
  bind get_all_books (fun all => fun w => (random_choice r all, w)).

(** ** Sequences of calls *)

Inductive op : Type :=
| AddBook (tok : string) (fault : option s3_fault) (book : nat)
| UpdateBook (fault : option s3_fault) (id : string) (new_book : nat)
| DeleteBook (fault : option s3_fault) (id : string)
| GetAllBooks
| GetBookById (id : string)
| GetBookByIndex (index : Z).

Definition forget {A : Type} (m : M A) : M unit :=
  fun w => match m w with
           | (Return _, w') => (Return tt, w')
           | (Raise e, w') => (Raise e, w')
           end.

(** One call, its returned value dropped. *)
Definition exec (o : op) : M unit :=
  match o with
  | AddBook tok fault book => forget (add_book tok fault book)
  | UpdateBook fault id new_book => forget (update_book fault id new_book)
  | DeleteBook fault id => forget (delete_book fault id)
  | GetAllBooks => forget get_all_books
  | GetBookById id => forget (get_book_by_id id)
  | GetBookByIndex index => forget (get_book_by_index index)
  end.

(** The calls in order, an exception ending only the call that raised it;
    the result is each call with its outcome, and the final world. *)
Fixpoint run (ops : list op) (w : world) : list (op * result unit) * world :=
  match ops with
  | [] => ([], w)
  | o :: rest =>
      let '(r, w1) := exec o w in
      let '(tr, w2) := run rest w1 in
      ((o, r) :: tr, w2)
  end.

(** A condition on each call and the world it is made in. *)
Fixpoint each_call (ok : op -> world -> bool) (ops : list op) (w : world) : bool :=
  match ops with
  | [] => true
  | o :: rest => ok o w && each_call ok rest (snd (exec o w))
  end.

(** An [add_book] draws a token that is not a key of the mapping. *)
Definition token_not_key (o : op) (w : world) : bool :=
  match o with
  | AddBook tok _ _ => negb (dict_in (Some tok) (books (self w)))
  | _ => true
  end.

(** An [add_book] is given an object the mapping does not hold, as when
    the caller builds a new [Book] for the call. *)
Definition payload_not_stored (o : op) (w : world) : bool :=
  match o with
  | AddBook _ _ book => negb (existsb (Nat.eqb book) (dict_values (books (self w))))
  | _ => true
  end.

End Store.

Definition is_add (o : op) : bool :=
  match o with AddBook _ _ _ => true | _ => false end.
Definition is_delete (o : op) : bool :=
  match o with DeleteBook _ _ => true | _ => false end.
Definition is_update (o : op) : bool :=
  match o with UpdateBook _ _ _ => true | _ => false end.

Definition is_http_exception {A : Type} (r : result A) : bool :=
  match r with Raise (HTTPException _ _) => true | _ => false end.




Fixpoint distinct (l : list key) : bool :=
  match l with
  | [] => true
  | k :: rest => negb (existsb (key_eqb k) rest) && distinct rest
  end.

(** The books added and not yet deleted, in the order they were added,
    each with the token its [add_book] call drew: an [add_book] puts its
    book last, a [delete_book] takes out the book that has the id.
    [live] is the list before the calls. *)
Fixpoint added_not_deleted (ops : list op) (live : list (string * nat)) : list (string * nat) :=
  match ops with
  | [] => live
  | AddBook tok _ book :: rest => added_not_deleted rest (live ++ [(tok, book)])
  | DeleteBook _ id :: rest =>
      added_not_deleted rest (List.filter (fun e => negb (String.eqb (fst e) id)) live)
  | _ :: rest => added_not_deleted rest live
  end.

(** The dict that holds each book of a list under its token. *)
Definition as_dict (live : list (string * nat)) : list (key * nat) :=
  List.map (fun e => (Some (fst e), snd e)) live.

(** ** A codec and conversions to run the model on concrete worlds

    The stored bytes are the value tree itself, and a constructor argument
    of another type than the annotated one is refused. *)
Definition tree_dumps (v : value) : value := v.
Definition tree_loads (b : value) : decoded := Parsed b.

Definition typed_only : pydantic :=
  {| coerce_str := fun _ => None; coerce_float := fun _ => None |}.

Arguments S3 blob : clear implicits.
Arguments s3_call blob : clear implicits.
Arguments world blob : clear implicits.
Arguments M blob A : clear implicits.

(** The body [_save_books] sends for a dict over a heap. *)
Definition saved_body {blob : Type} (json_dumps : value -> blob)
    (h : Heap) (d : list (key * nat)) : blob :=
  json_dumps (VList (List.map (fun book => to_dict (h !!! book)) (dict_values d))).

(** The exception that leaves [_save_books] for a given fault of its
    request, if any. *)
Definition save_raises (fault : option s3_fault) : option exn :=
  match fault with
  | None => None
  | Some (ClientFault code) =>
      if String.eqb code "404" then None else Some (ClientError code)
  | Some (OtherFault cls) => Some (PyError cls)
  end.

(** What the caller of a mutator sees when the [put_object] of its persist
    step raised [f]: the exception itself, except for a [ClientError] coded
    ["404"], after which the mutator returns its normal value. *)
Definition persist_failed_outcome {A : Type} (f : s3_fault) (r : result A) (normal : A) : Prop :=
  (f <> ClientFault "404" -> r = Raise (exn_of_fault f)) /\
  (f = ClientFault "404" -> r = Return normal).

(** The world [w'] after a mutator whose persist step failed, for the
    dict [d] the mutator assigned and the heap [h] it left: the store holds
    [d], the objects are [h], the bucket holds what it held, and the log has
    one more request, the [put_object]. *)
Definition memory_updated_blob_stale {blob : Type} (json_dumps : value -> blob)
    (w w' : world blob) (d : list (key * nat)) (h : Heap) : Prop :=
  self w' = {| book_file := book_file (self w); books := d |} /\
  heap w' = h /\
  objects (s3 w') = objects (s3 w) /\
  calls (s3 w') = calls (s3 w) ++ [PutObject BUCKET (book_file (self w)) (saved_body json_dumps h d)].

(** Every entry is stored under the [book_id] its object has, as the
    class docstring says of [books]. *)
Definition keyed_by_book_id (h : Heap) (d : list (key * nat)) : bool :=
  forallb (fun e => key_eqb (fst e) (book_id (h !!! snd e))) d.

(** The same, on the fields. *)
Definition keyed_fields (v : list (key * Book)) : bool :=
  forallb (fun e => key_eqb (fst e) (book_id (snd e))) v.

(** Every reference of the dict names an object of the heap. *)
Definition allocated (h : Heap) (d : list (key * nat)) : Prop :=
  Forall (fun e => is_Some (h !! snd e)) d.

(** The fault of the persist step of a call, if the call has one. *)
Definition persist_fault (o : op) : option s3_fault :=
  match o with
  | AddBook _ fault _ | UpdateBook fault _ _ | DeleteBook fault _ => fault
  | _ => None
  end.


(** The strings of the [Literal] annotation of [genre]. *)
Definition GENRES : list string :=
  ["fiction"; "romance"; "comedy"; "adventure"; "self-improvement"; "drama"].

(** The call has no fault in its persist step. *)
Definition served (o : op) : bool :=
  match persist_fault o with
  | None => true
  | Some _ => false
  end.

(** The books a constructor call returned, as [stored] shows them. *)
Definition loaded_books {blob : Type} (x : result BookStore * S3 blob * Heap)
    : result (list (key * Book)) :=
  match x with
  | (Return st, _, h) => Return (stored h (books st))
  | (Raise e, _, _) => Raise e
  end.

(** A store constructed now on the bucket of [w], for the same file, with
    both requests served, shows the books the store of [w] shows. *)
Definition reload_agrees {blob : Type} (json_loads : blob -> decoded) (py : pydantic)
    (class_token : string) (w : world blob) : Prop :=
  loaded_books
    (__init__ json_loads py class_token None None (book_file (self w)) (s3 w) (heap w))
  = Return (stored (heap w) (books (self w))).

(** Two books have the same name, genre and price. *)
Definition same_content (a b : Book) : Prop :=
  name a = name b /\ genre a = genre b /\ price a = price b.

(** ** Concrete books and worlds used by the examples *)

Definition dune : Book := mkBook "Dune" fiction 10.0%float None.
Definition emma : Book := mkBook "Emma" romance 15.5%float (Some "caller-supplied").
Definition tok1 : string := "0f8fad5bd9cb469fa16570867728950e".
Definition tok2 : string := "7c9e6679742540de944be07fc1f90ae7".
Definition tok3 : string := "e4eaaaf2d142499fb9a4b9f1e43c8a11".

(** The token the class body of [Book] drew in the examples. *)
Definition class_tok : string := "3d6f4a2b9c1e4f708a5b6c7d8e9f0a1b".

(** Two payloads built without [book_id]: they carry the class default. *)
Definition dune2 : Book := mkBook "Dune Messiah" fiction 12.0%float (Some class_tok).
Definition emma2 : Book := mkBook "Emma, revised" romance 16.0%float (Some class_tok).

(** The objects of the examples: four payloads (0 to 3) and two books as
    [add_book] left them (4 and 5). *)
Definition shelf : Heap :=
  list_to_map
    [ (0%nat, dune); (1%nat, emma); (2%nat, dune2); (3%nat, emma2);
      (4%nat, set_book_id tok1 dune); (5%nat, set_book_id tok2 emma) ].

Definition empty_s3 : S3 value := {| objects := ∅; calls := [] |}.

Definition store_of (d : list (key * nat)) : world value :=
  {| self := {| book_file := BOOKS_FILE; books := d |}; s3 := empty_s3; heap := shelf |}.

(** A store holding two books under the ids [add_book] gave them. *)
Definition two_books : world value :=
  store_of [ (Some tok1, 4%nat); (Some tok2, 5%nat) ].

(** A bucket that already holds one saved book. *)
Definition one_book_bucket : S3 value :=
  {| objects := {[ BOOKS_FILE := VList [to_dict (set_book_id tok1 dune)] ]}; calls := [] |}.

(** A bucket whose blob has a record without a price. *)
Definition bad_record_bucket : S3 value :=
  {| objects :=
       {[ BOOKS_FILE :=
            VList [ to_dict (set_book_id tok1 dune);
                    VDict [("name", VStr "Emma"); ("genre", VStr "romance");
                           ("book_id", VStr tok2)] ] ]};
     calls := [] |}.


(** Adds and deletes that all return normally; the last [add_book] draws
    the token of a book deleted before, and is given the object the second
    one was given. *)
Definition token_drawn_again : list op :=
  [ AddBook tok1 None 0%nat;
    AddBook tok2 (Some (ClientFault "404")) 1%nat;
    DeleteBook None tok1;
    AddBook tok1 None 1%nat ].


(** [uuid4().hex] returning the same token twice. *)
Definition repeated_token : list op :=
  [ AddBook tok1 None 0%nat; AddBook tok1 None 1%nat ].

(** One object given to [add_book] twice. *)
Definition same_object_twice : list op :=
  [ AddBook tok1 None 0%nat; AddBook tok2 None 0%nat ].

(** Served adds, deletes and reads, one delete on an unknown id. *)
Definition served_calls : list op :=
  [ AddBook tok2 None 1%nat;
    GetAllBooks;
    DeleteBook None "invalid_id";
    DeleteBook None tok1;
    AddBook tok3 None 0%nat;
    GetBookById tok2 ].

(** Two books added, then each updated with a payload built without
    [book_id]. *)
Definition two_updates : list op :=
  [ AddBook tok1 None 0%nat;
    AddBook tok2 None 1%nat;
    UpdateBook None tok1 2%nat;
    UpdateBook None tok2 3%nat ].

(** * Properties *)

Ltac by_eval := vm_compute; reflexivity.
Ltac evals := cbv zeta; repeat match goal with |- _ /\ _ => split end; by_eval.

(** ** The dict primitives *)

Section DictFacts.
Context {V : Type}.
Implicit Types (k : key) (v : V) (d : list (key * V)).

Lemma key_eqb_eq k k' : key_eqb k k' = true <-> k = k'.
Proof. unfold key_eqb. apply bool_decide_eq_true. Qed.

Lemma key_eqb_refl k : key_eqb k k = true.
Proof. by apply key_eqb_eq. Qed.

Lemma key_eqb_neq k k' : key_eqb k k' = false <-> k <> k'.
Proof. unfold key_eqb. apply bool_decide_eq_false. Qed.

Lemma dict_in_cons k k' v d :
  dict_in k ((k', v) :: d) = key_eqb k k' || dict_in k d.
Proof. unfold dict_in. simpl. by destruct (key_eqb k k'). Qed.

Lemma dict_in_keys k d : dict_in k d = true <-> In k (dict_keys d).
Proof.
  induction d as [|[k' v'] d IH].
  - split; [discriminate | intros []].
  - rewrite dict_in_cons, orb_true_iff, IH, key_eqb_eq. simpl.
    split; (intros [H|H]; [left; by symmetry | by right]).
Qed.

Lemma dict_in_false_keys k d : dict_in k d = false <-> ~ In k (dict_keys d).
Proof.
  rewrite <- dict_in_keys. destruct (dict_in k d); split; congruence.
Qed.

Lemma dict_in_app k d1 d2 : dict_in k (d1 ++ d2) = dict_in k d1 || dict_in k d2.
Proof.
  induction d1 as [|[k' v'] d1 IH]; [done|].
  simpl. rewrite !dict_in_cons, IH. by rewrite orb_assoc.
Qed.

Lemma dict_get_set k v d : dict_get k (dict_set k v d) = Some v.
Proof.
  induction d as [|[k' v'] d IH]; simpl.
  - by rewrite key_eqb_refl.
  - destruct (key_eqb k k') eqn:E; simpl; [by rewrite key_eqb_refl | by rewrite E].
Qed.

Lemma dict_get_set_other k k' v d :
  k <> k' -> dict_get k' (dict_set k v d) = dict_get k' d.
Proof.
  intros Hne. induction d as [|[k0 v0] d IH]; simpl.
  - apply not_eq_sym, key_eqb_neq in Hne. by rewrite Hne.
  - destruct (key_eqb k k0) eqn:E; simpl.
    + apply key_eqb_eq in E. subst k0.
      apply not_eq_sym, key_eqb_neq in Hne. by rewrite Hne.
    + by rewrite IH.
Qed.

(** Assigning to a new key appends. *)
Lemma dict_set_new k v d : dict_in k d = false -> dict_set k v d = d ++ [(k, v)].
Proof.
  induction d as [|[k' v'] d IH]; [done|].
  rewrite dict_in_cons. intros [E H]%orb_false_iff. simpl. rewrite E. f_equal. auto.
Qed.

(** Assigning to a present key replaces the value where it stands. *)
Lemma dict_set_present k v d :
  dict_in k d = true ->
  exists before old after,
    d = before ++ (k, old) :: after /\ dict_in k before = false /\
    dict_set k v d = before ++ (k, v) :: after.
Proof.
  induction d as [|[k' v'] d IH]; [discriminate|].
  rewrite dict_in_cons. simpl. destruct (key_eqb k k') eqn:E.
  - intros _. apply key_eqb_eq in E. subst k'. by exists [], v', d.
  - simpl. intros H. destruct (IH H) as (b & o & a & -> & Hb & ->).
    exists ((k', v') :: b), o, a. repeat split. by rewrite dict_in_cons, E, Hb.
Qed.

(** Deleting a present key removes its entry and nothing else. *)
Lemma dict_del_present k d :
  dict_in k d = true ->
  exists before old after,
    d = before ++ (k, old) :: after /\ dict_in k before = false /\
    dict_del k d = before ++ after.
Proof.
  induction d as [|[k' v'] d IH]; [discriminate|].
  rewrite dict_in_cons. simpl. destruct (key_eqb k k') eqn:E.
  - intros _. apply key_eqb_eq in E. subst k'. by exists [], v', d.
  - simpl. intros H. destruct (IH H) as (b & o & a & -> & Hb & ->).
    exists ((k', v') :: b), o, a. repeat split. by rewrite dict_in_cons, E, Hb.
Qed.

Lemma dict_set_length_new k v d :
  dict_in k d = false -> length (dict_set k v d) = S (length d).
Proof. intros H. rewrite (dict_set_new _ _ _ H), length_app. simpl. lia. Qed.


Lemma dict_del_length k d :
  dict_in k d = true -> S (length (dict_del k d)) = length d.
Proof.
  intros H. destruct (dict_del_present k d H) as (b & o & a & -> & _ & ->).
  rewrite !length_app. simpl. lia.
Qed.

Lemma dict_keys_set_present k v d :
  dict_in k d = true -> dict_keys (dict_set k v d) = dict_keys d.
Proof.
  intros H. destruct (dict_set_present k v d H) as (b & o & a & -> & _ & ->).
  unfold dict_keys. by rewrite !map_app.
Qed.

End DictFacts.

(** ** Distinct keys *)

Lemma existsb_key_eqb (k : key) (l : list key) :
  existsb (key_eqb k) l = true <-> k ∈ l.
Proof.
  rewrite existsb_exists. split.
  - intros (x & Hx & ->%key_eqb_eq). by apply list_elem_of_In.
  - intros H. exists k. split; [by apply list_elem_of_In | apply key_eqb_refl].
Qed.

Lemma distinct_NoDup (l : list key) : distinct l = true <-> NoDup l.
Proof.
  induction l as [|k l IH]; simpl.
  - split; [constructor | done].
  - rewrite andb_true_iff, negb_true_iff, IH, NoDup_cons.
    rewrite <- not_true_iff_false, existsb_key_eqb. done.
Qed.

Lemma dict_in_elem_of {V : Type} (k : key) (d : list (key * V)) :
  dict_in k d = true <-> k ∈ dict_keys d.
Proof. rewrite dict_in_keys. symmetry. apply list_elem_of_In. Qed.

Lemma dict_in_not_elem_of {V : Type} (k : key) (d : list (key * V)) :
  dict_in k d = false <-> k ∉ dict_keys d.
Proof. rewrite <- dict_in_elem_of. destruct (dict_in k d); split; congruence. Qed.

(** ** The methods *)

Section StoreFacts.
Context {blob : Type}.
Variable json_dumps : value -> blob.
Variable json_loads : blob -> decoded.
Variable py : pydantic.
Variable class_token : string.
Implicit Types (w : world blob) (fault : option s3_fault) (id tok : string) (book : nat).

(** [_save_books] sends one request with the whole collection, leaves the
    store object and the heap alone, replaces the blob only when the request
    is served, and raises exactly what [save_raises] says. *)
Lemma save_books_spec fault w :
  exists s',
    _save_books json_dumps fault w =
      (match save_raises fault with Some e => Raise e | None => Return tt end,
       {| self := self w; s3 := s'; heap := heap w |}) /\
    calls s' = calls (s3 w)
               ++ [PutObject BUCKET (book_file (self w))
                     (saved_body json_dumps (heap w) (books (self w)))] /\
    objects s' =
      match fault with
      | None =>
          <[book_file (self w) := saved_body json_dumps (heap w) (books (self w))]>
            (objects (s3 w))
      | Some _ => objects (s3 w)
      end.
Proof.
  unfold _save_books, put_object, saved_body.
  destruct fault as [[code|cls]|]; simpl.
  - destruct (String.eqb code "404"); eexists; (split; [reflexivity | by split]).
  - eexists; (split; [reflexivity | by split]).
  - eexists; (split; [reflexivity | by split]).
Qed.

(** The common tail of the three mutators: assign the new dict, persist,
    return a value read in the final world. The dict is assigned whatever
    the persist step does. *)
Lemma mutate_then_save fault (d : list (key * nat)) (v : world blob -> value) w :
  exists s',
    let w' := {| self := {| book_file := book_file (self w); books := d |};
                 s3 := s'; heap := heap w |} in
    bind (set_books d)
      (fun _ => bind (_save_books json_dumps fault) (fun _ => fun w1 => (Return (v w1), w1))) w =
      (match save_raises fault with Some e => Raise e | None => Return (v w') end, w') /\
    calls s' = calls (s3 w)
               ++ [PutObject BUCKET (book_file (self w)) (saved_body json_dumps (heap w) d)] /\
    objects s' =
      match fault with
      | None => <[book_file (self w) := saved_body json_dumps (heap w) d]> (objects (s3 w))
      | Some _ => objects (s3 w)
      end.
Proof.
  unfold bind at 1. unfold set_books at 1. unfold bind.
  set (w1 := {| self := {| book_file := book_file (self w); books := d |};
                s3 := s3 w; heap := heap w |}).
  destruct (save_books_spec fault w1) as (s' & Hs & Hc & Ho).
  exists s'. simpl. rewrite Hs. split; [|by split].
  by destruct (save_raises fault).
Qed.

Lemma add_book_spec tok fault book w :
  exists s',
    let h' := <[book := set_book_id tok (heap w !!! book)]> (heap w) in
    let d' := dict_set (Some tok) book (books (self w)) in
    add_book json_dumps tok fault book w =
      (match save_raises fault with
       | Some e => Raise e
       | None => Return (VDict [("book-id", VStr tok)])
       end,
       {| self := {| book_file := book_file (self w); books := d' |};
          s3 := s'; heap := h' |}) /\
    calls s' = calls (s3 w)
               ++ [PutObject BUCKET (book_file (self w)) (saved_body json_dumps h' d')] /\
    objects s' =
      match fault with
      | None => <[book_file (self w) := saved_body json_dumps h' d']> (objects (s3 w))
      | Some _ => objects (s3 w)
      end.
Proof.
  unfold add_book, bind, assign_book_id, set_books. simpl.
  rewrite lookup_total_insert_eq. simpl.
  set (h' := <[book := set_book_id tok (heap w !!! book)]> (heap w)).
  set (w1 := {| self := {| book_file := book_file (self w);
                          books := dict_set (Some tok) book (books (self w)) |};
                s3 := s3 w; heap := h' |}).
  destruct (save_books_spec fault w1) as (s' & Hs & Hc & Ho).
  exists s'. rewrite Hs. split; [|by split].
  destruct (save_raises fault); [done|]. simpl. subst h'.
  by rewrite lookup_total_insert_eq.
Qed.

Lemma update_book_spec fault id book w :
  dict_in (Some id) (books (self w)) = true ->
  exists s',
    let d' := dict_set (Some id) book (books (self w)) in
    update_book json_dumps fault id book w =
      (match save_raises fault with
       | Some e => Raise e
       | None => Return (VDict [("book", to_dict (heap w !!! book)); ("book-id", VStr id)])
       end,
       {| self := {| book_file := book_file (self w); books := d' |};
          s3 := s'; heap := heap w |}) /\
    calls s' = calls (s3 w)
               ++ [PutObject BUCKET (book_file (self w)) (saved_body json_dumps (heap w) d')] /\
    objects s' =
      match fault with
      | None => <[book_file (self w) := saved_body json_dumps (heap w) d']> (objects (s3 w))
      | Some _ => objects (s3 w)
      end.
Proof.
  intros Hin. unfold update_book. rewrite Hin.
  apply (mutate_then_save fault _
           (fun w' => VDict [("book", to_dict (heap w' !!! book)); ("book-id", VStr id)]) w).
Qed.

Lemma delete_book_spec fault id w :
  dict_in (Some id) (books (self w)) = true ->
  exists s',
    let d' := dict_del (Some id) (books (self w)) in
    delete_book json_dumps fault id w =
      (match save_raises fault with
       | Some e => Raise e
       | None => Return (VDict [("message", VStr "The book has been deleted")])
       end,
       {| self := {| book_file := book_file (self w); books := d' |};
          s3 := s'; heap := heap w |}) /\
    calls s' = calls (s3 w)
               ++ [PutObject BUCKET (book_file (self w)) (saved_body json_dumps (heap w) d')] /\
    objects s' =
      match fault with
      | None => <[book_file (self w) := saved_body json_dumps (heap w) d']> (objects (s3 w))
      | Some _ => objects (s3 w)
      end.
Proof.
  intros Hin. unfold delete_book. rewrite Hin.
  apply (mutate_then_save fault _
           (fun _ => VDict [("message", VStr "The book has been deleted")]) w).
Qed.

Lemma update_book_absent fault id book w :
  dict_in (Some id) (books (self w)) = false ->
  update_book json_dumps fault id book w = (Raise (not_found id), w).
Proof. intros H. unfold update_book. by rewrite H. Qed.

Lemma delete_book_absent fault id w :
  dict_in (Some id) (books (self w)) = false ->
  delete_book json_dumps fault id w = (Raise (not_found id), w).
Proof. intros H. unfold delete_book. by rewrite H. Qed.

Lemma get_book_by_id_absent id w :
  dict_in (Some id) (books (self w)) = false ->
  get_book_by_id id w = (Raise (not_found id), w).
Proof.
  unfold dict_in, get_book_by_id. by destruct (dict_get (Some id) (books (self w))).
Qed.

(** ** Lookups by an unknown id *)

(** C2. When [id] is not a key of the mapping, [get_book_by_id id],
    [update_book id b] and [delete_book id] each raise the 404
    [HTTPException] whose message carries [id], and the world after the call
    is the world before it: same mapping, same objects, same bucket, no
    request sent. *)
Theorem unknown_id_not_found fault id book w :
  dict_in (Some id) (books (self w)) = false ->
  get_book_by_id id w
    = (Raise (HTTPException 404 ("Book ID " +:+ id +:+ " not found in database.")), w) /\
  update_book json_dumps fault id book w
    = (Raise (HTTPException 404 ("Book ID " +:+ id +:+ " not found in database.")), w) /\
  delete_book json_dumps fault id w
    = (Raise (HTTPException 404 ("Book ID " +:+ id +:+ " not found in database.")), w).
Proof.
  intros H. split; [|split].
  - by apply get_book_by_id_absent.
  - by apply update_book_absent.
  - by apply delete_book_absent.
Qed.

(** ** Lookup by position *)

(** C6. With [n] books in the store, [get_book_by_index index] returns
    the [to_dict] of the book at position [index] of the values in
    insertion order when [0 <= index < n], and otherwise (so for
    [index = n] and for every negative index) raises the 404
    [HTTPException] whose message carries the index and [n]. The world is
    unchanged either way. *)
Theorem get_book_by_index_range (index : Z) w :
  let n := Z.of_nat (List.length (books (self w))) in
  (0 <= index < n ->
     exists book, nth_error (dict_values (books (self w))) (Z.to_nat index) = Some book /\
                  get_book_by_index index w = (Return (to_dict (heap w !!! book)), w)) /\
  (~ (0 <= index < n) ->
     get_book_by_index index w
       = (Raise (HTTPException 404
            ("book index " +:+ str_of_int index +:+ " out of range ("
               +:+ str_of_int n +:+ ")")), w)).
Proof.
  intros n. unfold get_book_by_index. fold n. split.
  - intros [H0 Hn].
    assert (Hlt : (Z.to_nat index < List.length (dict_values (books (self w))))%nat).
    { unfold dict_values. rewrite length_map. subst n. lia. }
    apply nth_error_Some in Hlt.
    destruct (nth_error _ _) as [b|] eqn:E; [|done].
    exists b. split; [done|].
    apply Z.leb_le in H0. apply Z.ltb_lt in Hn. by rewrite H0, Hn.
  - intros Hout.
    destruct (0 <=? index) eqn:H0; destruct (index <? n) eqn:Hn; simpl; try reflexivity.
    apply Z.leb_le in H0. apply Z.ltb_lt in Hn. lia.
Qed.

(** ** [add_book] *)

(** C1, as the code has it. [add_book] assigns the token [uuid4().hex]
    returned to the [book_id] of the object it was given, whatever the
    object carried, stores that object under the token, and returns the
    token unless the persist step raises. It never compares the token with
    the keys: when the token is not a key the object becomes the new last
    entry. No other object changes. In every case [get_book_by_id] with the
    token then returns the payload's name, genre and price with the token as
    [book_id]. *)
Theorem add_book_then_get tok fault book w :
  let payload := heap w !!! book in
  let r := fst (add_book json_dumps tok fault book w) in
  let w' := snd (add_book json_dumps tok fault book w) in
  (save_raises fault = None -> r = Return (VDict [("book-id", VStr tok)])) /\
  (dict_in (Some tok) (books (self w)) = false ->
     books (self w') = books (self w) ++ [(Some tok, book)]) /\
  heap w' = <[book := set_book_id tok payload]> (heap w) /\
  get_book_by_id tok w'
    = (Return (VDict [ ("name", VStr (name payload));
                       ("genre", VStr (genre_str (genre payload)));
                       ("price", VFloat (price payload));
                       ("book_id", VStr tok) ]), w').
Proof.
  destruct (add_book_spec tok fault book w) as (s' & H & _ & _).
  simpl in *. rewrite H. simpl. split; [|split; [|split]].
  - by intros ->.
  - intros Hnew. by apply dict_set_new.
  - done.
  - unfold get_book_by_id. simpl. rewrite dict_get_set.
    by rewrite lookup_total_insert_eq.
Qed.

(** ** [update_book] *)

(** C3, as the code has it. When [id] is a key, [update_book id
    new_book] leaves the keys as they are and puts the object [new_book]
    itself under [id], no object changed: if the [book_id] of that object is
    not [id], the key and the stored book's [book_id] differ. A payload
    built without [book_id] carries the class default, so for such a payload
    they differ exactly when [id] is not the class token. *)
Theorem update_book_keeps_payload_id fault id book w :
  dict_in (Some id) (books (self w)) = true ->
  let w' := snd (update_book json_dumps fault id book w) in
  dict_keys (books (self w')) = dict_keys (books (self w)) /\
  dict_get (Some id) (books (self w')) = Some book /\
  heap w' = heap w /\
  (book_id (heap w !!! book) <> Some id ->
     exists stored_book, dict_get (Some id) (books (self w')) = Some stored_book /\
                         book_id (heap w' !!! stored_book) <> Some id) /\
  (forall n g p, Book_init py class_token n g p None = Return (heap w !!! book) ->
     (book_id (heap w' !!! book) <> Some id <-> class_token <> id)).
Proof.
  intros Hin.
  destruct (update_book_spec fault id book w Hin) as (s' & H & _ & _).
  simpl in *. rewrite H. simpl. split; [|split; [|split; [|split]]].
  - by apply dict_keys_set_present.
  - apply dict_get_set.
  - done.
  - intros Hne. exists book. split; [apply dict_get_set | done].
  - intros n g p Hinit. unfold Book_init in Hinit.
    destruct (to_str py n), (to_genre g), (to_float py p); try discriminate.
    injection Hinit as <-. simpl. unfold default_book_id. split; congruence.
Qed.

(** C10. A successful [update_book id new_book] replaces the value of
    the entry keyed [id] where it stands: the entries before it and after
    it are the same, in the same order, and no object changes, so the keys
    are unchanged and [get_all_books] differs only by [new_book] standing
    where the old value stood. *)
Theorem update_book_frame fault id book w :
  is_return (fst (update_book json_dumps fault id book w)) = true ->
  let w' := snd (update_book json_dumps fault id book w) in
  exists before old after,
    books (self w) = before ++ (Some id, old) :: after /\
    dict_in (Some id) before = false /\
    books (self w') = before ++ (Some id, book) :: after /\
    heap w' = heap w /\
    fst (get_all_books w) = Return (dict_values before ++ old :: dict_values after) /\
    fst (get_all_books w') = Return (dict_values before ++ book :: dict_values after).
Proof.
  intros Hok.
  destruct (dict_in (Some id) (books (self w))) eqn:Hin.
  - destruct (update_book_spec fault id book w Hin) as (s' & H & _ & _).
    simpl in *. rewrite H. simpl.
    destruct (dict_set_present (Some id) book _ Hin) as (b & o & a & Hd & Hb & Hs).
    exists b, o, a. unfold get_all_books. simpl. rewrite Hs, Hd.
    unfold dict_values. rewrite !map_app. simpl. done.
  - rewrite (update_book_absent fault id book w Hin) in Hok. discriminate.
Qed.

(** ** Failure of the persist step *)

(** C4, as the code has it. Let the [put_object] of the persist step
    raise [f]. For each mutator ([update_book] and [delete_book] on a key
    that is present): the caller gets that exception, unless it is a
    [ClientError] coded ["404"], which [_save_books] drops so that the
    mutator returns its normal value; the store keeps the mutation
    ([add_book] has also assigned the token to its object); the bucket is as
    before; and the request log has grown by exactly one [put_object], so
    nothing was retried. *)
Theorem persist_failure_effects (f : s3_fault) tok id book new_book w :
  (persist_failed_outcome f
     (fst (add_book json_dumps tok (Some f) book w)) (VDict [("book-id", VStr tok)]) /\
   memory_updated_blob_stale json_dumps w
     (snd (add_book json_dumps tok (Some f) book w))
     (dict_set (Some tok) book (books (self w)))
     (<[book := set_book_id tok (heap w !!! book)]> (heap w))) /\
  (dict_in (Some id) (books (self w)) = true ->
   persist_failed_outcome f
     (fst (update_book json_dumps (Some f) id new_book w))
     (VDict [("book", to_dict (heap w !!! new_book)); ("book-id", VStr id)]) /\
   memory_updated_blob_stale json_dumps w
     (snd (update_book json_dumps (Some f) id new_book w))
     (dict_set (Some id) new_book (books (self w))) (heap w)) /\
  (dict_in (Some id) (books (self w)) = true ->
   persist_failed_outcome f
     (fst (delete_book json_dumps (Some f) id w))
     (VDict [("message", VStr "The book has been deleted")]) /\
   memory_updated_blob_stale json_dumps w
     (snd (delete_book json_dumps (Some f) id w))
     (dict_del (Some id) (books (self w))) (heap w)).
Proof.
  assert (Hout : forall (v : value),
    persist_failed_outcome f
      (match save_raises (Some f) with Some e => Raise e | None => Return v end) v).
  { intros v. unfold persist_failed_outcome. destruct f as [code|cls]; simpl.
    - destruct (String.eqb_spec code "404") as [->|Hne]; split; congruence.
    - split; [done | discriminate]. }
  split; [|split].
  - destruct (add_book_spec tok (Some f) book w) as (s' & H & Hc & Ho).
    simpl in *. rewrite H. split; [apply Hout | by repeat split].
  - intros Hin.
    destruct (update_book_spec (Some f) id new_book w Hin) as (s' & H & Hc & Ho).
    simpl in *. rewrite H. split; [apply Hout | by repeat split].
  - intros Hin.
    destruct (delete_book_spec (Some f) id w Hin) as (s' & H & Hc & Ho).
    simpl in *. rewrite H. split; [apply Hout | by repeat split].
Qed.

(** ** The class default of [book_id] *)

(** C9. The default of [book_id] is the one token drawn when the class
    body ran: two books built without a [book_id] argument, whatever their
    other fields, both carry that token. *)
Theorem default_book_id_shared (n1 g1 p1 n2 g2 p2 : value) (b1 b2 : Book) :
  Book_init py class_token n1 g1 p1 None = Return b1 ->
  Book_init py class_token n2 g2 p2 None = Return b2 ->
  book_id b1 = Some class_token /\ book_id b2 = book_id b1.
Proof.
  assert (H : forall n g p b,
    Book_init py class_token n g p None = Return b -> book_id b = Some class_token).
  { intros n g p b. unfold Book_init.
    destruct (to_str py n), (to_genre g), (to_float py p); try discriminate.
    by intros [= <-]. }
  intros H1 H2. apply H in H1, H2. by rewrite H1, H2.
Qed.

(** ** Saving and loading *)

Lemma genre_of_str_genre_str g : genre_of_str (genre_str g) = Some g.
Proof. by destruct g. Qed.

(** A record written by [to_dict] is read back as the same fields. *)
Lemma load_book_to_dict (b : Book) :
  load_book py class_token (to_dict b) = Return b.
Proof.
  destruct b as [n g p i]. unfold load_book, to_dict, getitem. simpl.
  unfold Book_init, to_genre, to_optional_str. simpl. rewrite genre_of_str_genre_str.
  by destruct i as [i|].
Qed.

End StoreFacts.

(** ** One call of a sequence *)

Section CallFacts.
Context {blob : Type}.
Variable json_dumps : value -> blob.
Implicit Types (w : world blob) (fault : option s3_fault) (id tok : string) (book : nat).


Lemma exec_add tok fault book w :
  exists s',
    exec json_dumps (AddBook tok fault book) w =
      (match save_raises fault with Some e => Raise e | None => Return tt end,
       {| self := {| book_file := book_file (self w);
                     books := dict_set (Some tok) book (books (self w)) |};
          s3 := s';
          heap := <[book := set_book_id tok (heap w !!! book)]> (heap w) |}).
Proof.
  destruct (add_book_spec json_dumps tok fault book w) as (s' & H & _).
  exists s'. unfold exec, forget. simpl in H. rewrite H. by destruct (save_raises fault).
Qed.

Lemma exec_update_present fault id book w :
  dict_in (Some id) (books (self w)) = true ->
  exists s',
    exec json_dumps (UpdateBook fault id book) w =
      (match save_raises fault with Some e => Raise e | None => Return tt end,
       {| self := {| book_file := book_file (self w);
                     books := dict_set (Some id) book (books (self w)) |};
          s3 := s'; heap := heap w |}).
Proof.
  intros Hin. destruct (update_book_spec json_dumps fault id book w Hin) as (s' & H & _).
  exists s'. unfold exec, forget. simpl in H. rewrite H. by destruct (save_raises fault).
Qed.

Lemma exec_delete_present fault id w :
  dict_in (Some id) (books (self w)) = true ->
  exists s',
    exec json_dumps (DeleteBook fault id) w =
      (match save_raises fault with Some e => Raise e | None => Return tt end,
       {| self := {| book_file := book_file (self w);
                     books := dict_del (Some id) (books (self w)) |};
          s3 := s'; heap := heap w |}).
Proof.
  intros Hin. destruct (delete_book_spec json_dumps fault id w Hin) as (s' & H & _).
  exists s'. unfold exec, forget. simpl in H. rewrite H. by destruct (save_raises fault).
Qed.

Lemma exec_update_absent fault id book w :
  dict_in (Some id) (books (self w)) = false ->
  exec json_dumps (UpdateBook fault id book) w = (Raise (not_found id), w).
Proof. intros H. unfold exec, forget. by rewrite update_book_absent. Qed.

Lemma exec_delete_absent fault id w :
  dict_in (Some id) (books (self w)) = false ->
  exec json_dumps (DeleteBook fault id) w = (Raise (not_found id), w).
Proof. intros H. unfold exec, forget. by rewrite delete_book_absent. Qed.

(** The three readers leave the world as it is. *)
Lemma exec_read o w :
  is_add o || is_update o || is_delete o = false -> snd (exec json_dumps o w) = w.
Proof.
  destruct o; try discriminate; intros _; unfold exec, forget; simpl.
  - done.
  - unfold get_book_by_id. by destruct (dict_get _ _).
  - unfold get_book_by_index.
    destruct (_ && _); [destruct (nth_error _ _)|]; done.
Qed.

(** Only [add_book] changes an object, and only the [book_id] of the
    object it was given. *)
Lemma exec_heap o w :
  heap (snd (exec json_dumps o w))
  = match o with
    | AddBook tok _ book => <[book := set_book_id tok (heap w !!! book)]> (heap w)
    | _ => heap w
    end.
Proof.
  destruct o as [tok fault book|fault id nb|fault id| |id|index].
  - by destruct (exec_add tok fault book w) as (s' & ->).
  - destruct (dict_in (Some id) (books (self w))) eqn:Hin.
    + by destruct (exec_update_present fault id nb w Hin) as (s' & ->).
    + by rewrite (exec_update_absent fault id nb w Hin).
  - destruct (dict_in (Some id) (books (self w))) eqn:Hin.
    + by destruct (exec_delete_present fault id w Hin) as (s' & ->).
    + by rewrite (exec_delete_absent fault id w Hin).
  - by rewrite exec_read.
  - by rewrite exec_read.
  - by rewrite exec_read.
Qed.

Lemma run_cons o rest w :
  run json_dumps (o :: rest) w =
    ((o, fst (exec json_dumps o w)) :: fst (run json_dumps rest (snd (exec json_dumps o w))),
     snd (run json_dumps rest (snd (exec json_dumps o w)))).
Proof.
  simpl. destruct (exec json_dumps o w) as [r w1]. simpl.
  by destruct (run json_dumps rest w1).
Qed.

End CallFacts.



(** Removing one key of a duplicate-free list that is followed by other
    keys keeps the whole duplicate-free. *)
Lemma NoDup_remove_middle (before after later : list key) (k : key) :
  NoDup ((before ++ k :: after) ++ later) -> NoDup ((before ++ after) ++ later).
Proof.
  intros H. apply (sublist_NoDup _ _ H).
  apply sublist_app; [|done].
  apply sublist_app; [done|]. by apply sublist_cons.
Qed.

(** ** Sequences of calls *)

Section SequenceFacts.
Context {blob : Type}.
Variable json_dumps : value -> blob.
Implicit Types (w : world blob) (ops : list op).






(** ** Order of the books *)

Lemma as_dict_values live : dict_values (as_dict live) = List.map snd live.
Proof. unfold dict_values, as_dict. rewrite map_map. done. Qed.

Lemma as_dict_in tok live :
  dict_in (Some tok) (as_dict live) = false -> ~ In tok (List.map fst live).
Proof.
  induction live as [|[t r] live IH]; [by intros _ []|].
  simpl. rewrite dict_in_cons. intros [Hk Hin]%orb_false_iff [<-|H].
  - by rewrite key_eqb_refl in Hk.
  - by apply IH.
Qed.

Lemma filter_other_tokens id (live : list (string * nat)) :
  ~ In id (List.map fst live) ->
  List.filter (fun e => negb (String.eqb (fst e) id)) live = live.
Proof.
  induction live as [|[t r] live IH]; [done|]. simpl. intros Hnot.
  destruct (String.eqb_spec t id) as [->|Hne]; simpl.
  - exfalso. apply Hnot. by left.
  - f_equal. apply IH. intros H. apply Hnot. by right.
Qed.

Lemma filter_tokens_NoDup id (live : list (string * nat)) :
  List.NoDup (List.map fst live) ->
  List.NoDup (List.map fst (List.filter (fun e => negb (String.eqb (fst e) id)) live)).
Proof.
  induction live as [|[t r] live IH]; [done|]. simpl. intros Hnd.
  apply List.NoDup_cons_iff in Hnd as [Hnot Hnd].
  destruct (negb (String.eqb t id)); simpl; [|auto].
  apply List.NoDup_cons; [|auto].
  intros Hin. apply Hnot. apply in_map_iff in Hin as (e & <- & He).
  apply filter_In in He as [He _]. by apply in_map.
Qed.

(** Deleting a key of the dict is taking out the book that has the id. *)
Lemma dict_del_as_dict id (live : list (string * nat)) :
  List.NoDup (List.map fst live) ->
  dict_del (Some id) (as_dict live)
  = as_dict (List.filter (fun e => negb (String.eqb (fst e) id)) live).
Proof.
  induction live as [|[t r] live IH]; [done|]. simpl. intros Hnd.
  apply List.NoDup_cons_iff in Hnd as [Hnot Hnd].
  destruct (String.eqb_spec t id) as [->|Hne]; simpl.
  - rewrite key_eqb_refl. by rewrite filter_other_tokens.
  - assert (Hk : key_eqb (Some id) (Some t) = false) by (apply key_eqb_neq; congruence).
    rewrite Hk. by rewrite IH.
Qed.

Lemma run_order ops : forall w (live : list (string * nat)),
  books (self w) = as_dict live ->
  List.NoDup (List.map fst live) ->
  forallb (fun o => is_add o || is_delete o) ops = true ->
  forallb (fun e => is_return (snd e)) (fst (run json_dumps ops w)) = true ->
  each_call json_dumps token_not_key ops w = true ->
  books (self (snd (run json_dumps ops w))) = as_dict (added_not_deleted ops live).
Proof.
  induction ops as [|o ops IH]; intros w live Hb Hnd Hops Hok Hfresh; [done|].
  rewrite run_cons in *. simpl fst in Hok. simpl snd.
  simpl in Hok, Hops, Hfresh.
  apply andb_true_iff in Hok as [Hret Hok]. apply andb_true_iff in Hops as [Ho Hops].
  apply andb_true_iff in Hfresh as [Hnew Hfresh].
  destruct o as [tok fault book|fault id nb|fault id| |id|index]; try discriminate.
  - simpl in Hnew. apply negb_true_iff in Hnew.
    destruct (exec_add json_dumps tok fault book w) as (s' & He).
    rewrite He in *. simpl in *.
    rewrite (dict_set_new _ _ _ Hnew) in *.
    apply IH; try done.
    + simpl. rewrite Hb. unfold as_dict. by rewrite map_app.
    + rewrite map_app. simpl. apply NoDup_ListNoDup, NoDup_app.
      split; [by apply NoDup_ListNoDup|]. split; [|apply NoDup_singleton].
      intros x Hx ->%list_elem_of_singleton. rewrite Hb in Hnew.
      apply (as_dict_in _ _ Hnew). by apply list_elem_of_In.
  - destruct (dict_in (Some id) (books (self w))) eqn:Hin.
    + destruct (exec_delete_present json_dumps fault id w Hin) as (s' & He).
      rewrite He in *. simpl in *.
      apply IH; try done.
      * simpl. rewrite Hb. by apply dict_del_as_dict.
      * by apply filter_tokens_NoDup.
    + rewrite (exec_delete_absent json_dumps fault id w Hin) in Hret. discriminate.
Qed.

(** A sequence of calls leaves the name, genre and price of every object
    as they were. *)
Lemma run_same_content ops : forall w (book : nat),
  same_content (heap (snd (run json_dumps ops w)) !!! book) (heap w !!! book).
Proof.
  induction ops as [|o ops IH]; intros w book; [done|].
  rewrite run_cons. simpl snd.
  destruct (IH (snd (exec json_dumps o w)) book) as (Hn & Hg & Hp).
  unfold same_content. rewrite Hn, Hg, Hp, exec_heap.
  destruct o as [tok fault b| | | | |]; try done.
  destruct (decide (b = book)) as [->|Hne].
  - by rewrite lookup_total_insert_eq.
  - by rewrite lookup_total_insert_ne.
Qed.

(** The reader by position on a position that holds a book. *)
Lemma get_book_by_index_nth (i : nat) (book : nat) w :
  nth_error (dict_values (books (self w))) i = Some book ->
  get_book_by_index (Z.of_nat i) w = (Return (to_dict (heap w !!! book)), w).
Proof.
  intros H. unfold get_book_by_index. rewrite Nat2Z.id, H.
  assert (Hlt : (i < List.length (books (self w)))%nat).
  { assert (Hs : nth_error (dict_values (books (self w))) i <> None) by (rewrite H; done).
    apply nth_error_Some in Hs. unfold dict_values in Hs. by rewrite length_map in Hs. }
  replace (0 <=? Z.of_nat i) with true by (symmetry; apply Z.leb_le; lia).
  replace (Z.of_nat i <? Z.of_nat (List.length (books (self w)))) with true
    by (symmetry; apply Z.ltb_lt; lia).
  done.
Qed.

(** C7, as the code has it. Start from an empty store and make
    [add_book] and [delete_book] calls that all return normally, each
    [add_book] drawing a token that is not a key of the mapping when it is
    called. Then the objects in the store, in order, are the books added
    and not yet deleted, in the order they were added, and
    [get_book_by_index] at a position below the count returns the [to_dict]
    of the object at that position of this list; the object has the name,
    genre and price it had before the calls. *)
Theorem index_follows_insertion_order ops (file : string) (s : S3 blob) (h : Heap) :
  let w := {| self := {| book_file := file; books := [] |}; s3 := s; heap := h |} in
  let tr := fst (run json_dumps ops w) in
  let w' := snd (run json_dumps ops w) in
  forallb (fun o => is_add o || is_delete o) ops = true ->
  forallb (fun e => is_return (snd e)) tr = true ->
  each_call json_dumps token_not_key ops w = true ->
  dict_values (books (self w')) = List.map snd (added_not_deleted ops []) /\
  forall (i : nat) (book : nat),
    nth_error (List.map snd (added_not_deleted ops [])) i = Some book ->
    same_content (heap w' !!! book) (h !!! book) /\
    get_book_by_index (Z.of_nat i) w' = (Return (to_dict (heap w' !!! book)), w').
Proof.
  intros w tr w' Hops Hok Hfresh.
  assert (Hv : dict_values (books (self w')) = List.map snd (added_not_deleted ops [])).
  { subst w' tr. rewrite (run_order ops w []); try done.
    - apply as_dict_values.
    - constructor. }
  split; [exact Hv|].
  intros i book Hi. split.
  - apply (run_same_content ops w book).
  - apply get_book_by_index_nth. by rewrite Hv.
Qed.

End SequenceFacts.

(** * Further properties of the store *)

(** ** More on the dict primitives *)

Section DictMore.
Context {V : Type}.
Implicit Types (k : key) (v : V) (d : list (key * V)).

Lemma dict_get_del_other k k' d :
  k <> k' -> dict_get k' (dict_del k d) = dict_get k' d.
Proof.
  intros Hne. induction d as [|[k0 v0] d IH]; [done|]. simpl.
  destruct (key_eqb k k0) eqn:E; simpl.
  - apply key_eqb_eq in E. subst k0.
    apply not_eq_sym, key_eqb_neq in Hne. by rewrite Hne.
  - by rewrite IH.
Qed.

Lemma dict_keys_set_NoDup k v d : NoDup (dict_keys d) -> NoDup (dict_keys (dict_set k v d)).
Proof.
  intros Hnd. destruct (dict_in k d) eqn:Hin.
  - by rewrite dict_keys_set_present.
  - rewrite (dict_set_new _ _ _ Hin). unfold dict_keys in *. rewrite map_app. simpl.
    apply NoDup_app. split; [done|]. split; [|apply NoDup_singleton].
    intros x Hx ->%list_elem_of_singleton.
    by apply dict_in_not_elem_of in Hin.
Qed.

Lemma dict_del_absent k d : dict_in k d = false -> dict_del k d = d.
Proof.
  induction d as [|[k0 v0] d IH]; [done|].
  rewrite dict_in_cons. intros [E Hin]%orb_false_iff.
  simpl. rewrite E. f_equal. auto.
Qed.

Lemma dict_keys_del_NoDup k d : NoDup (dict_keys d) -> NoDup (dict_keys (dict_del k d)).
Proof.
  intros Hnd. destruct (dict_in k d) eqn:Hin.
  - destruct (dict_del_present _ _ Hin) as (b & o & a & Hd & _ & ->).
    rewrite Hd in Hnd. unfold dict_keys in *. rewrite map_app in *. simpl in Hnd.
    rewrite <- (app_nil_r (_ ++ _)). apply (NoDup_remove_middle _ _ [] k).
    by rewrite app_nil_r.
  - by rewrite dict_del_absent.
Qed.

(** With distinct keys, a deleted key is gone. *)
Lemma dict_in_del_same k d : NoDup (dict_keys d) -> dict_in k (dict_del k d) = false.
Proof.
  intros Hnd. destruct (dict_in k d) eqn:Hin.
  - destruct (dict_del_present _ _ Hin) as (b & o & a & Hd & Hb & ->).
    rewrite Hd in Hnd. unfold dict_keys in Hnd. rewrite map_app in Hnd. simpl in Hnd.
    apply NoDup_app in Hnd as (_ & _ & [Ha _]%NoDup_cons).
    rewrite dict_in_app, Hb. simpl. by apply dict_in_not_elem_of.
  - by rewrite dict_del_absent.
Qed.

Lemma dict_set_Forall (P : key * V -> Prop) k v d :
  Forall P d -> P (k, v) -> Forall P (dict_set k v d).
Proof.
  intros Hd Hkv. induction d as [|[k0 v0] d IH]; simpl.
  - by constructor.
  - apply Forall_cons in Hd as [H0 Hd].
    destruct (key_eqb k k0); constructor; auto.
Qed.

Lemma dict_del_Forall (P : key * V -> Prop) k d :
  Forall P d -> Forall P (dict_del k d).
Proof.
  intros Hd. induction d as [|[k0 v0] d IH]; [done|]. simpl.
  apply Forall_cons in Hd as [H0 Hd].
  destruct (key_eqb k k0); [done|]. constructor; auto.
Qed.

End DictMore.

(** ** Objects and what the dict shows of them *)

Lemma stored_keys (h : Heap) (d : list (key * nat)) : dict_keys (stored h d) = dict_keys d.
Proof. unfold dict_keys, stored. rewrite map_map. done. Qed.

Lemma stored_app (h : Heap) (d1 d2 : list (key * nat)) :
  stored h (d1 ++ d2) = stored h d1 ++ stored h d2.
Proof. unfold stored. apply map_app. Qed.

Lemma stored_set (h : Heap) (k : key) (book : nat) (d : list (key * nat)) :
  stored h (dict_set k book d) = dict_set k (h !!! book) (stored h d).
Proof.
  induction d as [|[k0 r0] d IH]; [done|]. simpl.
  destruct (key_eqb k k0); simpl; [done|]. by rewrite IH.
Qed.

Lemma stored_del (h : Heap) (k : key) (d : list (key * nat)) :
  stored h (dict_del k d) = dict_del k (stored h d).
Proof.
  induction d as [|[k0 r0] d IH]; [done|]. simpl.
  destruct (key_eqb k k0); simpl; [done|]. by rewrite IH.
Qed.

Lemma keyed_stored (h : Heap) (d : list (key * nat)) :
  keyed_by_book_id h d = keyed_fields (stored h d).
Proof.
  unfold keyed_by_book_id, keyed_fields, stored.
  induction d as [|e d IH]; [done|]. simpl. by rewrite IH.
Qed.

(** A new object changes nothing of what a dict of older objects shows. *)
Lemma stored_alloc (h : Heap) (d : list (key * nat)) (book : nat) (fields : Book) :
  allocated h d -> h !! book = None -> stored (<[book := fields]> h) d = stored h d.
Proof.
  intros Hd Hnew. unfold stored. apply map_ext_Forall.
  eapply Forall_impl; [exact Hd|]. intros [k r] [b Hb]. simpl in *.
  f_equal. apply lookup_total_insert_ne. congruence.
Qed.

(** Changing an object the dict does not hold changes nothing of what
    the dict shows. *)
Lemma stored_other (h : Heap) (d : list (key * nat)) (book : nat) (fields : Book) :
  existsb (Nat.eqb book) (dict_values d) = false ->
  stored (<[book := fields]> h) d = stored h d.
Proof.
  intros Hnot. unfold stored. apply map_ext_in. intros [k r] Hin. simpl.
  f_equal. apply lookup_total_insert_ne. intros ->.
  assert (Hex : existsb (Nat.eqb r) (dict_values d) = true); [|congruence].
  apply existsb_exists. exists r. split; [|apply Nat.eqb_refl].
  unfold dict_values. apply in_map_iff. by exists (k, r).
Qed.

Lemma fresh_ref_new (h : Heap) : h !! fresh_ref h = None.
Proof. apply not_elem_of_dom. unfold fresh_ref. apply is_fresh. Qed.

Lemma keyed_fields_app (v1 v2 : list (key * Book)) :
  keyed_fields (v1 ++ v2) = keyed_fields v1 && keyed_fields v2.
Proof. unfold keyed_fields. apply forallb_app. Qed.

Lemma keyed_fields_set (k : key) (b : Book) (v : list (key * Book)) :
  keyed_fields v = true -> k = book_id b -> keyed_fields (dict_set k b v) = true.
Proof.
  intros Hd ->. induction v as [|[k0 b0] v IH]; simpl.
  - by rewrite key_eqb_refl.
  - simpl in Hd. apply andb_true_iff in Hd as [H0 Hd].
    destruct (key_eqb (book_id b) k0); simpl.
    + by rewrite key_eqb_refl.
    + by rewrite H0, IH.
Qed.

Lemma keyed_fields_del (k : key) (v : list (key * Book)) :
  keyed_fields v = true -> keyed_fields (dict_del k v) = true.
Proof.
  induction v as [|[k0 b0] v IH]; [done|]. simpl.
  intros [H0 Hd]%andb_true_iff. destruct (key_eqb k k0); [done|].
  simpl. by rewrite H0, IH.
Qed.

(** ** Constructing a store *)

Section LoadFacts.
Context {blob : Type}.
Variable json_dumps : value -> blob.
Variable json_loads : blob -> decoded.
Variable py : pydantic.
Variable class_token : string.
Implicit Types (w : world blob) (s : S3 blob) (h : Heap) (file id tok : string).

Local Arguments load_except : simpl never.

(** The loop and the heap: what the dict it builds shows is what
    [load_fields] computes; every reference it stores names an object; no
    object that existed is changed. *)
Lemma load_loop_fields (items : list value) : forall (acc : list (key * nat)) h,
  allocated h acc ->
  let x := load_loop py class_token items acc h in
  let y := load_fields py class_token items (stored h acc) in
  fst (fst x) = fst y /\
  stored (snd x) (snd (fst x)) = snd y /\
  allocated (snd x) (snd (fst x)) /\
  (forall r b, h !! r = Some b -> snd x !! r = Some b).
Proof.
  induction items as [|item items IH]; intros acc h Hacc; simpl.
  - done.
  - destruct (load_book py class_token item) as [fields|e]; simpl; [|done].
    pose proof (fresh_ref_new h) as Hnew.
    set (book := fresh_ref h) in *.
    assert (Hacc' : allocated (<[book := fields]> h)
                      (dict_set (book_id fields) book acc)).
    { apply dict_set_Forall.
      - eapply Forall_impl; [exact Hacc|]. intros [k r] [b Hb]. simpl in *.
        exists b. rewrite lookup_insert_ne; [done | congruence].
      - simpl. rewrite lookup_insert_eq. by eexists. }
    destruct (IH _ _ Hacc') as (H1 & H2 & H3 & H4).
    rewrite stored_set, lookup_total_insert_eq, (stored_alloc _ _ _ _ Hacc Hnew) in H1, H2.
    repeat split; try done.
    intros r b Hb. apply H4. rewrite lookup_insert_ne; [done | congruence].
Qed.

(** The two ways [_load_books] ends: on the [except] clause before the
    loop, with nothing loaded and the heap as it was, or after the loop;
    the requests sent are one [HEAD], followed by at most one [GET]. *)
Lemma load_books_cases (head_fault get_fault : option s3_fault) file s h :
  exists s',
    (s' = log_call (HeadObject BUCKET file) s \/
     s' = log_call (GetObject BUCKET file) (log_call (HeadObject BUCKET file) s)) /\
    ((exists e, _load_books json_loads py class_token head_fault get_fault file s h
                = (load_except e [], s', h)) \/
     (exists items,
        _load_books json_loads py class_token head_fault get_fault file s h
        = (match fst (fst (load_loop py class_token items [] h)) with
           | Return _ => Return (snd (fst (load_loop py class_token items [] h)))
           | Raise e => load_except e (snd (fst (load_loop py class_token items [] h)))
           end, s', snd (load_loop py class_token items [] h)))).
Proof.
  unfold _load_books, head_object, get_object. simpl.
  destruct head_fault as [f|]; simpl.
  { eexists. split; [by left|]. left. by eexists. }
  destruct (objects s !! file) as [body|] eqn:Hb; simpl.
  2:{ eexists. split; [by left|]. left. by eexists. }
  destruct get_fault as [f|]; simpl; [|rewrite Hb; simpl].
  { eexists. split; [by right|]. left. by eexists. }
  eexists. split; [by right|].
  destruct (json_loads body) as [data| |]; simpl; [|left; by eexists..].
  destruct (py_iter data) as [items|e0]; simpl; [|left; by eexists].
  right. exists items.
  by destruct (load_loop py class_token items [] h) as [[[u|e] loaded] h'].
Qed.

(** [_load_books] with both requests served on a blob that reads as a
    list. *)
Lemma load_books_served file s h (body : blob) (items : list value) :
  objects s !! file = Some body ->
  json_loads body = Parsed (VList items) ->
  _load_books json_loads py class_token None None file s h
  = (match fst (fst (load_loop py class_token items [] h)) with
     | Return _ => Return (snd (fst (load_loop py class_token items [] h)))
     | Raise e => load_except e (snd (fst (load_loop py class_token items [] h)))
     end,
     log_call (GetObject BUCKET file) (log_call (HeadObject BUCKET file) s),
     snd (load_loop py class_token items [] h)).
Proof.
  intros Hb Hl. unfold _load_books, head_object, get_object. simpl.
  repeat (rewrite Hb; simpl). rewrite Hl. simpl.
  by destruct (load_loop py class_token items [] h) as [[[u|e] loaded] h'].
Qed.

Lemma load_except_return (e : exn) (d d' : list (key * nat)) :
  load_except e d = Return d' -> d' = d.
Proof.
  unfold load_except. destruct e as [| code |]; simpl; try discriminate.
  destruct (String.eqb code "404"); [by intros [= <-] | discriminate].
Qed.

Lemma init_load (head_fault get_fault : option s3_fault) file s h :
  __init__ json_loads py class_token head_fault get_fault file s h
  = (match fst (fst (_load_books json_loads py class_token head_fault get_fault file s h)) with
     | Return d => Return {| book_file := file; books := d |}
     | Raise e => Raise e
     end,
     snd (fst (_load_books json_loads py class_token head_fault get_fault file s h)),
     snd (_load_books json_loads py class_token head_fault get_fault file s h)).
Proof.
  unfold __init__.
  by destruct (_load_books json_loads py class_token head_fault get_fault file s h)
    as [[[d|e] s'] h'].
Qed.

(** X1. When the blob does not exist (the [HEAD] request is answered
    with code 404), the store starts empty: this is not an error. One
    request was sent, the bucket is as it was and no object was made. *)
Theorem init_missing_blob (head_fault get_fault : option s3_fault) file s h :
  head_fault = Some (ClientFault "404") \/ (head_fault = None /\ objects s !! file = None) ->
  __init__ json_loads py class_token head_fault get_fault file s h
  = (Return {| book_file := file; books := [] |},
     {| objects := objects s; calls := calls s ++ [HeadObject BUCKET file] |},
     h).
Proof.
  intros [->|[-> H]]; unfold __init__, _load_books, head_object; simpl.
  - reflexivity.
  - by rewrite H.
Qed.

(** X2. Faults while loading. What the [HEAD] request raises leaves the
    constructor unless it is a [ClientError] coded ["404"]. The [GET]
    request is inside the same [try]: what it raises leaves the constructor
    too, except a [ClientError] coded ["404"], after which the store starts
    empty although the blob exists. *)
Theorem init_fault_handling (f : s3_fault) (get_fault : option s3_fault) file s h :
  (f <> ClientFault "404" ->
     fst (fst (__init__ json_loads py class_token (Some f) get_fault file s h))
     = Raise (exn_of_fault f)) /\
  (is_Some (objects s !! file) ->
     (f <> ClientFault "404" ->
        fst (fst (__init__ json_loads py class_token None (Some f) file s h))
        = Raise (exn_of_fault f)) /\
     (f = ClientFault "404" ->
        fst (fst (__init__ json_loads py class_token None (Some f) file s h))
        = Return {| book_file := file; books := [] |})).
Proof.
  assert (Hex : forall d,
    (f <> ClientFault "404" -> load_except (exn_of_fault f) d = Raise (exn_of_fault f)) /\
    (f = ClientFault "404" -> load_except (exn_of_fault f) d = Return d)).
  { intros d. unfold load_except. destruct f as [code|cls]; simpl.
    - destruct (String.eqb_spec code "404") as [->|Hne]; split; congruence.
    - split; [done | discriminate]. }
  split.
  - intros Hf. unfold __init__, _load_books, head_object. simpl.
    by rewrite (proj1 (Hex []) Hf).
  - intros [body Hb]. unfold __init__, _load_books, head_object, get_object. simpl.
    rewrite Hb. simpl. split; intros Hf.
    + by rewrite (proj1 (Hex []) Hf).
    + by rewrite (proj2 (Hex []) Hf).
Qed.

(** [_load_books] leaves the objects of the bucket and the objects of the
    heap alone, and sends one [HEAD], followed by at most one [GET]. *)
Lemma load_books_read_only (head_fault get_fault : option s3_fault) file s h :
  let x := _load_books json_loads py class_token head_fault get_fault file s h in
  objects (snd (fst x)) = objects s /\
  (calls (snd (fst x)) = calls s ++ [HeadObject BUCKET file] \/
   calls (snd (fst x)) = calls s ++ [HeadObject BUCKET file; GetObject BUCKET file]) /\
  (forall r b, h !! r = Some b -> snd x !! r = Some b).
Proof.
  destruct (load_books_cases head_fault get_fault file s h) as (s' & Hs' & Hx).
  assert (Hs : objects s' = objects s /\
    (calls s' = calls s ++ [HeadObject BUCKET file] \/
     calls s' = calls s ++ [HeadObject BUCKET file; GetObject BUCKET file])).
  { destruct Hs' as [->| ->]; simpl; split; auto. right. by rewrite <- app_assoc. }
  destruct Hx as [[e ->]|[items ->]]; simpl.
  - destruct Hs. by repeat split.
  - destruct Hs. repeat split; try done.
    apply (load_loop_fields items [] h). constructor.
Qed.

(** X3. Constructing a store never writes: whatever the bucket holds
    and whatever the requests raise, the objects of the bucket are as
    before, the requests sent are one [HEAD], followed by at most one [GET],
    and no [Book] object that existed is changed. *)
Theorem init_never_writes (head_fault get_fault : option s3_fault) file s h :
  let x := __init__ json_loads py class_token head_fault get_fault file s h in
  objects (snd (fst x)) = objects s /\
  (calls (snd (fst x)) = calls s ++ [HeadObject BUCKET file] \/
   calls (snd (fst x)) = calls s ++ [HeadObject BUCKET file; GetObject BUCKET file]) /\
  (forall r b, h !! r = Some b -> snd x !! r = Some b).
Proof.
  rewrite init_load. simpl. apply load_books_read_only.
Qed.

(** The fields the loop stores stay keyed by the [book_id] they carry,
    with distinct keys, whether the loop ends or raises. *)
Lemma load_fields_invariant (items : list value) : forall (acc : list (key * Book)),
  keyed_fields acc = true -> NoDup (dict_keys acc) ->
  keyed_fields (snd (load_fields py class_token items acc)) = true /\
  NoDup (dict_keys (snd (load_fields py class_token items acc))).
Proof.
  induction items as [|item items IH]; intros acc Hk Hnd; [done|]. simpl.
  destruct (load_book py class_token item) as [book|e]; [|done].
  apply IH.
  - by apply keyed_fields_set.
  - by apply dict_keys_set_NoDup.
Qed.

(** A dict [_load_books] returns has distinct keys and has every object
    under the [book_id] the object carries. *)
Lemma load_books_keyed (head_fault get_fault : option s3_fault) file s h
    (d : list (key * nat)) :
  let x := _load_books json_loads py class_token head_fault get_fault file s h in
  fst (fst x) = Return d ->
  keyed_by_book_id (snd x) d = true /\ NoDup (dict_keys d) /\ allocated (snd x) d.
Proof.
  assert (Hnil : NoDup (dict_keys ([] : list (key * Book)))) by constructor.
  assert (Hfail : forall e h', load_except e [] = Return d ->
            keyed_by_book_id h' d = true /\ NoDup (dict_keys d) /\ allocated h' d).
  { intros e h' E. apply load_except_return in E. subst d. repeat split; constructor. }
  destruct (load_books_cases head_fault get_fault file s h) as (s' & _ & [[e ->]|[items ->]]);
    simpl; [apply Hfail|].
  destruct (load_loop_fields items [] h) as (H1 & H2 & H3 & _); [constructor|].
  destruct (load_fields_invariant items [] eq_refl Hnil) as [Hk Hnd].
  simpl in *. rewrite <- H2 in Hk, Hnd. rewrite <- keyed_stored in Hk.
  rewrite stored_keys in Hnd.
  destruct (fst (fst (load_loop py class_token items [] h))) as [u|e].
  - by intros [= <-].
  - intros E. apply load_except_return in E. by subst d.
Qed.

(** X4. Whatever the blob holds, a store the constructor returns is for
    the file asked, has distinct keys, and has every book under the
    [book_id] the book carries. *)
Theorem init_keyed_distinct (head_fault get_fault : option s3_fault) file s h
    (st : BookStore) :
  let x := __init__ json_loads py class_token head_fault get_fault file s h in
  fst (fst x) = Return st ->
  book_file st = file /\
  keyed_by_book_id (snd x) (books st) = true /\
  distinct (dict_keys (books st)) = true.
Proof.
  rewrite init_load. simpl.
  pose proof (load_books_keyed head_fault get_fault file s h) as Hload. simpl in Hload.
  destruct (fst (fst (_load_books json_loads py class_token head_fault get_fault file s h)))
    as [d|e]; [|discriminate].
  intros [= <-]. destruct (Hload d eq_refl) as (Hk & Hnd & _). simpl.
  split; [done|]. split; [done|]. by apply distinct_NoDup.
Qed.

(** X5. What [to_dict] writes for a book, the loop body of
    [_load_books] reads back as the same fields: same name, genre, price
    and [book_id], also when the [book_id] is [None], whatever pydantic
    does with arguments of other types than the annotated ones. *)
Theorem to_dict_round_trip (b : Book) :
  load_book py class_token (to_dict b) = Return b.
Proof.
  destruct b as [n g p [i|]]; unfold load_book, to_dict, getitem; simpl;
    unfold Book_init, to_genre, to_optional_str; simpl;
    by rewrite genre_of_str_genre_str.
Qed.

Lemma genre_of_str_literal (g : string) :
  (In g GENRES -> exists g', genre_str g' = g /\ genre_of_str g = Some g') /\
  (~ In g GENRES -> genre_of_str g = None).
Proof.
  split.
  - simpl. intros [<-|[<-|[<-|[<-|[<-|[<-|[]]]]]]]; eexists; (split; [|reflexivity]); reflexivity.
  - intros Hnot. unfold genre_of_str.
    repeat match goal with
    | |- context [String.eqb g ?lit] =>
        destruct (String.eqb_spec g lit) as [->|_];
        [exfalso; apply Hnot; simpl; tauto|]
    end.
    reflexivity.
Qed.

(** X6. The constructor of [Book] accepts a genre exactly when it is
    one of the six strings of the [Literal]: then the book carries the
    name, that genre, the price and, no [book_id] being given, the class
    default; any other genre is a [ValidationError]. *)
Theorem Book_init_genre_literal (n g : string) (p : float) :
  (In g GENRES ->
     exists g', genre_str g' = g /\
       Book_init py class_token (VStr n) (VStr g) (VFloat p) None
       = Return (mkBook n g' p (Some class_token))) /\
  (~ In g GENRES ->
     Book_init py class_token (VStr n) (VStr g) (VFloat p) None
     = Raise (PyError "ValidationError")).
Proof.
  destruct (genre_of_str_literal g) as [Hin Hout]. split.
  - intros H. destruct (Hin H) as (g' & Hg' & Hg). exists g'. split; [done|].
    unfold Book_init, to_genre. simpl. by rewrite Hg.
  - intros H. unfold Book_init, to_genre. simpl. by rewrite (Hout H).
Qed.

(** A record without one of the four fields stops the loop body with a
    [KeyError]. *)
Lemma load_book_missing_field (fields : list (string * value)) :
  assoc "name" fields = None \/ assoc "genre" fields = None \/
  assoc "price" fields = None \/ assoc "book_id" fields = None ->
  load_book py class_token (VDict fields) = Raise (PyError "KeyError").
Proof.
  unfold load_book, getitem. simpl. intros H.
  destruct (assoc "name" fields); simpl; [|done].
  destruct (assoc "genre" fields); simpl; [|done].
  destruct (assoc "price" fields); simpl; [|done].
  destruct (assoc "book_id" fields); simpl; [|done].
  destruct H as [H|[H|[H|H]]]; discriminate.
Qed.

(** The loop body raises only exceptions other than [ClientError]. *)
Lemma load_book_raises (item : value) (e : exn) :
  load_book py class_token item = Raise e -> exists cls, e = PyError cls.
Proof.
  assert (Hget : forall v k e', getitem v k = Raise e' -> exists cls, e' = PyError cls).
  { intros v k e'. unfold getitem. destruct v; try (intros [= <-]; eauto).
    destruct (assoc k fields); [discriminate | intros [= <-]; eauto]. }
  assert (Hinit : forall a b c d e',
    Book_init py class_token a b c d = Raise e' -> exists cls, e' = PyError cls).
  { intros a b c d e'. unfold Book_init.
    repeat case_match; try discriminate; intros [= <-]; eauto. }
  unfold load_book, rbind.
  destruct (getitem item "name") eqn:E1; [|intros [= <-]; eauto].
  destruct (getitem item "genre") eqn:E2; [|intros [= <-]; eauto].
  destruct (getitem item "price") eqn:E3; [|intros [= <-]; eauto].
  destruct (getitem item "book_id") eqn:E4; [|intros [= <-]; eauto].
  apply Hinit.
Qed.

Lemma load_fields_bad_item (items : list value) (item : value) :
  In item items -> is_return (load_book py class_token item) = false ->
  forall acc, exists cls, fst (load_fields py class_token items acc) = Raise (PyError cls).
Proof.
  intros Hin Hbad. induction items as [|x items IH]; [done|]. intros acc. simpl.
  destruct (load_book py class_token x) as [book|e] eqn:E.
  - destruct Hin as [->|Hin]; [by rewrite E in Hbad | by apply IH].
  - destruct (load_book_raises _ _ E) as [cls ->]. by exists cls.
Qed.

(** X7. One bad record fails the whole construction: when the blob is
    a list in which some record lacks one of the fields [name], [genre],
    [price], [book_id], the constructor raises, whatever the other records
    are. *)
Theorem init_bad_record file s h (body : blob) (items : list value)
    (fields : list (string * value)) :
  objects s !! file = Some body ->
  json_loads body = Parsed (VList items) ->
  In (VDict fields) items ->
  assoc "name" fields = None \/ assoc "genre" fields = None \/
  assoc "price" fields = None \/ assoc "book_id" fields = None ->
  exists cls,
    fst (fst (__init__ json_loads py class_token None None file s h)) = Raise (PyError cls).
Proof.
  intros Hb Hl Hin Hmiss.
  assert (Hbad : is_return (load_book py class_token (VDict fields)) = false)
    by by rewrite load_book_missing_field.
  destruct (load_fields_bad_item items _ Hin Hbad []) as [cls Hloop].
  exists cls. rewrite init_load, (load_books_served file s h body items Hb Hl). simpl.
  destruct (load_loop_fields items [] h) as (H1 & _); [constructor|].
  simpl in H1. rewrite H1, Hloop. reflexivity.
Qed.

(** X17. A blob that cannot be read as a sequence of records fails the
    construction, with both requests served: bytes that are not UTF-8 raise
    [UnicodeDecodeError], text that is not JSON raises [JSONDecodeError],
    and JSON that cannot be iterated ([null], a number, [true]) raises
    [TypeError]. None of them is a [ClientError], so the [except] clause
    does not turn them into an empty store; no [Book] object is made. *)
Theorem init_unreadable_blob file s h (body : blob) :
  objects s !! file = Some body ->
  let x := __init__ json_loads py class_token None None file s h in
  (json_loads body = NotUtf8 ->
     fst (fst x) = Raise (PyError "UnicodeDecodeError") /\ snd x = h) /\
  (json_loads body = NotJson ->
     fst (fst x) = Raise (PyError "JSONDecodeError") /\ snd x = h) /\
  (forall data, json_loads body = Parsed data -> is_return (py_iter data) = false ->
     fst (fst x) = Raise (PyError "TypeError") /\ snd x = h).
Proof.
  intros Hb. cbv zeta. unfold __init__, _load_books, head_object, get_object. simpl.
  repeat (rewrite Hb; simpl).
  split; [by intros ->|]. split; [by intros ->|].
  intros data -> Hit. by destruct data.
Qed.

End LoadFacts.

(** ** The mutators, the blob and a later construction *)

Section MutatorFacts.
Context {blob : Type}.
Variable json_dumps : value -> blob.
Variable json_loads : blob -> decoded.
Variable py : pydantic.
Variable class_token : string.
Implicit Types (w : world blob) (s : S3 blob) (h : Heap) (fault : option s3_fault).
Implicit Types (id tok file : string) (book : nat).

Local Arguments load_except : simpl never.

(** X8. A served [_save_books] returns, leaves the store object and
    the [Book] objects as they are, replaces the store's own blob by the
    JSON list of the [to_dict] of every book in insertion order, and touches
    no other object of the bucket. *)
Theorem save_books_served w :
  let w' := snd (_save_books json_dumps None w) in
  fst (_save_books json_dumps None w) = Return tt /\
  self w' = self w /\
  heap w' = heap w /\
  objects (s3 w') !! book_file (self w)
    = Some (json_dumps
              (VList (List.map (fun book => to_dict (heap w !!! book))
                        (dict_values (books (self w)))))) /\
  forall k, k <> book_file (self w) -> objects (s3 w') !! k = objects (s3 w) !! k.
Proof.
  unfold _save_books, put_object. simpl. repeat split.
  - apply lookup_insert_eq.
  - intros k Hk. by apply lookup_insert_ne.
Qed.

(** What a mutator with a served persist step leaves: either it did not
    find its id and the world is as before, or the blob of the store is the
    saved form of the books now in memory. *)
Lemma exec_served_in_sync o w :
  is_add o || is_update o || is_delete o = true -> served o = true ->
  let w' := snd (exec json_dumps o w) in
  book_file (self w') = book_file (self w) /\
  ((w' = w /\ is_http_exception (fst (exec json_dumps o w)) = true) \/
   (objects (s3 w') !! book_file (self w)
      = Some (saved_body json_dumps (heap w') (books (self w'))) /\
    fst (exec json_dumps o w) = Return tt)).
Proof.
  unfold served.
  destruct o as [tok fault book|fault id nb|fault id| |id|index]; try discriminate;
    simpl persist_fault; intros _ Hs; (destruct fault; [discriminate|]); clear Hs.
  - destruct (add_book_spec json_dumps tok None book w) as (s' & H & _ & Ho).
    simpl in H, Ho. unfold exec, forget. rewrite H. simpl. split; [done|]. right.
    rewrite Ho. split; [apply lookup_insert_eq | done].
  - destruct (dict_in (Some id) (books (self w))) eqn:Hin.
    + destruct (update_book_spec json_dumps None id nb w Hin) as (s' & H & _ & Ho).
      simpl in H, Ho. unfold exec, forget. rewrite H. simpl. split; [done|]. right.
      rewrite Ho. split; [apply lookup_insert_eq | done].
    + rewrite (exec_update_absent json_dumps None id nb w Hin). simpl. auto.
  - destruct (dict_in (Some id) (books (self w))) eqn:Hin.
    + destruct (delete_book_spec json_dumps None id w Hin) as (s' & H & _ & Ho).
      simpl in H, Ho. unfold exec, forget. rewrite H. simpl. split; [done|]. right.
      rewrite Ho. split; [apply lookup_insert_eq | done].
    + rewrite (exec_delete_absent json_dumps None id w Hin). simpl. auto.
Qed.

(** X9. After an [add_book], [update_book] or [delete_book] call that
    returned normally with its [put_object] served, the blob of the store is
    the saved form of the books now in memory. *)
Theorem served_mutation_in_sync o w :
  is_add o || is_update o || is_delete o = true -> served o = true ->
  is_return (fst (exec json_dumps o w)) = true ->
  let w' := snd (exec json_dumps o w) in
  objects (s3 w') !! book_file (self w')
  = Some (json_dumps
            (VList (List.map (fun book => to_dict (heap w' !!! book))
                      (dict_values (books (self w')))))).
Proof.
  intros Hm Hs Hret.
  destruct (exec_served_in_sync o w Hm Hs) as [Hf [[_ Hhttp]|[Hsync _]]].
  - destruct (fst (exec json_dumps o w)) as [|[]]; discriminate.
  - simpl. rewrite Hf. exact Hsync.
Qed.

Lemma get_book_by_id_fst id w :
  fst (get_book_by_id id w)
  = match dict_get (Some id) (books (self w)) with
    | Some book => Return (to_dict (heap w !!! book))
    | None => Raise (not_found id)
    end.
Proof. unfold get_book_by_id. by destruct (dict_get _ _). Qed.

(** X10. After [delete_book id] on a key that is present, whatever its
    persist step did, the entry is gone and the others keep their order,
    no object is changed, and [get_book_by_id id] raises the 404
    [HTTPException]. *)
Theorem delete_then_get fault id w :
  distinct (dict_keys (books (self w))) = true ->
  dict_in (Some id) (books (self w)) = true ->
  let w' := snd (delete_book json_dumps fault id w) in
  (exists before old after,
     books (self w) = before ++ (Some id, old) :: after /\
     books (self w') = before ++ after) /\
  heap w' = heap w /\
  fst (get_book_by_id id w')
  = Raise (HTTPException 404 ("Book ID " +:+ id +:+ " not found in database.")).
Proof.
  intros Hd%distinct_NoDup Hin.
  destruct (delete_book_spec json_dumps fault id w Hin) as (s' & H & _).
  simpl in *. rewrite H. simpl. split; [|split; [done|]].
  - destruct (dict_del_present _ _ Hin) as (b & o & a & Hb & _ & Hdel). by exists b, o, a.
  - rewrite get_book_by_id_fst. simpl.
    pose proof (dict_in_del_same (Some id) _ Hd) as Hgone.
    unfold dict_in in Hgone. by destruct (dict_get _ _).
Qed.

(** X11. A mutator changes what [get_book_by_id] returns only for its
    own id, and, for [add_book], for the ids under which the object it was
    given is already stored. For every other id the lookup gives after the
    call what it gave before, whether the call returned, raised not-found,
    or raised from its persist step. *)
Theorem other_ids_untouched tok fault id id' (book new_book : nat) w :
  (id' <> tok -> dict_get (Some id') (books (self w)) <> Some book ->
     fst (get_book_by_id id' (snd (add_book json_dumps tok fault book w)))
     = fst (get_book_by_id id' w)) /\
  (id' <> id ->
     fst (get_book_by_id id' (snd (update_book json_dumps fault id new_book w)))
     = fst (get_book_by_id id' w)) /\
  (id' <> id ->
     fst (get_book_by_id id' (snd (delete_book json_dumps fault id w)))
     = fst (get_book_by_id id' w)).
Proof.
  split; [|split].
  - intros Hne Hother. rewrite !get_book_by_id_fst.
    destruct (add_book_spec json_dumps tok fault book w) as (s' & H & _).
    simpl in *. rewrite H. simpl. rewrite dict_get_set_other; [|congruence].
    destruct (dict_get (Some id') (books (self w))) as [r|]; [|done].
    rewrite lookup_total_insert_ne; [done | congruence].
  - intros Hne. rewrite !get_book_by_id_fst.
    destruct (dict_in (Some id) (books (self w))) eqn:Hin.
    + destruct (update_book_spec json_dumps fault id new_book w Hin) as (s' & H & _).
      simpl in *. rewrite H. simpl. rewrite dict_get_set_other; [done | congruence].
    + by rewrite (update_book_absent json_dumps fault id new_book w Hin).
  - intros Hne. rewrite !get_book_by_id_fst.
    destruct (dict_in (Some id) (books (self w))) eqn:Hin.
    + destruct (delete_book_spec json_dumps fault id w Hin) as (s' & H & _).
      simpl in *. rewrite H. simpl. rewrite dict_get_del_other; [done | congruence].
    + by rewrite (delete_book_absent json_dumps fault id w Hin).
Qed.

(** X16. [add_book] assigns the token to the object it is given. When
    that object is already stored under another id, the store then holds it
    under both ids, and [get_book_by_id] with the older id returns the book
    with the new token as [book_id]. *)
Theorem add_book_stored_object tok fault id' book w :
  dict_get (Some id') (books (self w)) = Some book -> id' <> tok ->
  let w' := snd (add_book json_dumps tok fault book w) in
  dict_get (Some id') (books (self w')) = Some book /\
  dict_get (Some tok) (books (self w')) = Some book /\
  fst (get_book_by_id id' w') = Return (to_dict (set_book_id tok (heap w !!! book))).
Proof.
  intros Hget Hne.
  destruct (add_book_spec json_dumps tok fault book w) as (s' & H & _).
  simpl in *. rewrite H. simpl. split; [|split].
  - rewrite dict_get_set_other; [done | congruence].
  - apply dict_get_set.
  - rewrite get_book_by_id_fst. simpl. rewrite dict_get_set_other; [|congruence].
    by rewrite Hget, lookup_total_insert_eq.
Qed.

(** One call other than [update_book], an [add_book] being given an
    object the mapping does not hold, keeps the file, the distinct keys and
    every book under the [book_id] it carries. *)
Lemma exec_keeps_keyed o w :
  is_update o = false ->
  payload_not_stored o w = true ->
  keyed_by_book_id (heap w) (books (self w)) = true ->
  NoDup (dict_keys (books (self w))) ->
  book_file (self (snd (exec json_dumps o w))) = book_file (self w) /\
  keyed_by_book_id (heap (snd (exec json_dumps o w)))
    (books (self (snd (exec json_dumps o w)))) = true /\
  NoDup (dict_keys (books (self (snd (exec json_dumps o w))))).
Proof.
  intros Hu Hp Hk Hnd.
  destruct o as [tok fault book|fault id nb|fault id| |id|index]; try discriminate.
  - destruct (exec_add json_dumps tok fault book w) as (s' & ->). simpl.
    simpl in Hp. apply negb_true_iff in Hp.
    split; [done|]. split; [|by apply dict_keys_set_NoDup].
    rewrite keyed_stored, stored_set, lookup_total_insert_eq, (stored_other _ _ _ _ Hp).
    apply keyed_fields_set; [by rewrite <- keyed_stored | done].
  - destruct (dict_in (Some id) (books (self w))) eqn:Hin.
    + destruct (exec_delete_present json_dumps fault id w Hin) as (s' & ->). simpl.
      split; [done|]. split; [|by apply dict_keys_del_NoDup].
      rewrite keyed_stored, stored_del. apply keyed_fields_del. by rewrite <- keyed_stored.
    + by rewrite (exec_delete_absent json_dumps fault id w Hin).
  - by rewrite exec_read.
  - by rewrite exec_read.
  - by rewrite exec_read.
Qed.

(** X12. The docstring of [BookStore] says [books] is keyed by
    [book_id]. A sequence of calls keeps it so when it has no [update_book]
    and each [add_book] is given an object the mapping does not hold (a
    [Book] built for the call): if the keys are distinct and each book is
    stored under the [book_id] it carries before the calls, it is after
    them, whatever tokens are drawn and whatever the persist steps do. *)
Theorem run_keeps_keyed ops w :
  forallb (fun o => negb (is_update o)) ops = true ->
  each_call json_dumps payload_not_stored ops w = true ->
  keyed_by_book_id (heap w) (books (self w)) = true ->
  distinct (dict_keys (books (self w))) = true ->
  let w' := snd (run json_dumps ops w) in
  keyed_by_book_id (heap w') (books (self w')) = true /\
  distinct (dict_keys (books (self w'))) = true.
Proof.
  revert w. induction ops as [|o ops IH]; intros w Hops Hp Hk Hd; [done|].
  simpl in Hops, Hp. apply andb_true_iff in Hops as [Ho Hops]. apply negb_true_iff in Ho.
  apply andb_true_iff in Hp as [Hpo Hp].
  rewrite run_cons. simpl snd.
  destruct (exec_keeps_keyed o w Ho Hpo Hk (proj1 (distinct_NoDup _) Hd)) as (_ & Hk' & Hnd').
  apply IH; [done | done | done | by apply distinct_NoDup].
Qed.

(** Reading back the records of fields keyed by their ids, on top of
    entries with other keys, rebuilds the fields entry by entry. *)
Lemma load_fields_to_dict (v acc : list (key * Book)) :
  keyed_fields v = true ->
  NoDup (dict_keys acc ++ dict_keys v) ->
  load_fields py class_token (List.map to_dict (dict_values v)) acc = (Return tt, acc ++ v).
Proof.
  revert acc. induction v as [|[k b] v IH]; intros acc Hk Hnd; simpl.
  - by rewrite app_nil_r.
  - rewrite (load_book_to_dict py class_token b).
    simpl in Hk. apply andb_true_iff in Hk as [Hkb Hk].
    apply key_eqb_eq in Hkb. simpl in Hkb. subst k.
    assert (Hnew : dict_in (book_id b) acc = false).
    { apply dict_in_not_elem_of. simpl in Hnd.
      apply NoDup_app in Hnd as (_ & Hdisj & _).
      intros Hin. apply (Hdisj _ Hin). by left. }
    rewrite (dict_set_new _ _ _ Hnew), IH; [by rewrite <- app_assoc | done |].
    unfold dict_keys in *. rewrite map_app, <- app_assoc. exact Hnd.
Qed.

(** A store constructed on a bucket whose blob is the saved form of a
    dict keyed by its books' ids shows the books of that dict. *)
Lemma init_of_saved file s h0 h (d : list (key * nat)) :
  (forall v, json_loads (json_dumps v) = Parsed v) ->
  objects s !! file = Some (saved_body json_dumps h d) ->
  keyed_by_book_id h d = true -> NoDup (dict_keys d) ->
  loaded_books (__init__ json_loads py class_token None None file s h0)
  = Return (stored h d).
Proof.
  intros Hcodec Hb Hk Hnd.
  assert (Hitems : List.map (fun book => to_dict (h !!! book)) (dict_values d)
                   = List.map to_dict (dict_values (stored h d))).
  { unfold dict_values, stored. by rewrite !map_map. }
  rewrite init_load.
  rewrite (load_books_served json_loads py class_token file s h0 _
             (List.map (fun book => to_dict (h !!! book)) (dict_values d)) Hb);
    [|by unfold saved_body; rewrite Hcodec].
  destruct (load_loop_fields py class_token
              (List.map (fun book => to_dict (h !!! book)) (dict_values d)) [] h0)
    as (H1 & H2 & _); [constructor|].
  simpl in H1, H2. simpl. rewrite H1.
  rewrite Hitems in *.
  rewrite (load_fields_to_dict (stored h d) []) in H2 |- *;
    [| by rewrite <- keyed_stored | by rewrite stored_keys
     | by rewrite <- keyed_stored | by rewrite stored_keys].
  simpl in *. by rewrite H2.
Qed.

Lemma load_except_cases (e : exn) :
  (forall d, load_except e d = Return d) \/ (forall d, load_except e d = Raise e).
Proof.
  unfold load_except. destruct e as [| code |]; auto.
  destruct (String.eqb code "404"); auto.
Qed.

(** What the constructor shows depends on the bucket only through its
    objects, and not on the heap. *)
Lemma init_loaded_ext file s1 s2 h1 h2 :
  objects s1 = objects s2 ->
  loaded_books (__init__ json_loads py class_token None None file s1 h1)
  = loaded_books (__init__ json_loads py class_token None None file s2 h2).
Proof.
  intros Ho. rewrite !init_load.
  unfold _load_books, head_object, get_object. simpl. rewrite Ho.
  destruct (objects s2 !! file) as [body|] eqn:Hb; simpl; [|done].
  rewrite Ho, Hb. simpl.
  destruct (json_loads body) as [data| |]; simpl; [|done..].
  destruct (py_iter data) as [items|e0]; simpl.
  2:{ by destruct (load_except_cases e0) as [-> | ->]. }
  destruct (load_loop_fields py class_token items [] h1) as (A1 & A2 & _); [constructor|].
  destruct (load_loop_fields py class_token items [] h2) as (B1 & B2 & _); [constructor|].
  simpl in *.
  destruct (load_loop py class_token items [] h1) as [[r1 d1] h1'].
  destruct (load_loop py class_token items [] h2) as [[r2 d2] h2'].
  simpl in *. subst r1 r2.
  destruct (fst (load_fields py class_token items [])) as [u|e]; simpl.
  - by rewrite A2, B2.
  - destruct (load_except_cases e) as [He|He]; rewrite !He; simpl; [by rewrite A2, B2 | done].
Qed.

Lemma exec_reload_agrees o w :
  (forall v, json_loads (json_dumps v) = Parsed v) ->
  is_update o = false -> served o = true ->
  payload_not_stored o w = true ->
  keyed_by_book_id (heap w) (books (self w)) = true ->
  NoDup (dict_keys (books (self w))) ->
  reload_agrees json_loads py class_token w ->
  reload_agrees json_loads py class_token (snd (exec json_dumps o w)).
Proof.
  intros Hcodec Hu Hs Hp Hk Hnd Hre.
  destruct (exec_keeps_keyed o w Hu Hp Hk Hnd) as (Hf & Hk' & Hnd').
  destruct (is_add o || is_update o || is_delete o) eqn:Hm.
  - destruct (exec_served_in_sync o w Hm Hs) as [_ [[-> _]|[Hsync _]]]; [done|].
    unfold reload_agrees. rewrite Hf.
    by apply (init_of_saved _ _ _ _ _ Hcodec Hsync).
  - by rewrite exec_read.
Qed.

Lemma run_reload_agrees ops : forall w,
  (forall v, json_loads (json_dumps v) = Parsed v) ->
  forallb (fun o => negb (is_update o) && served o) ops = true ->
  each_call json_dumps payload_not_stored ops w = true ->
  keyed_by_book_id (heap w) (books (self w)) = true ->
  NoDup (dict_keys (books (self w))) ->
  reload_agrees json_loads py class_token w ->
  reload_agrees json_loads py class_token (snd (run json_dumps ops w)) /\
  book_file (self (snd (run json_dumps ops w))) = book_file (self w).
Proof.
  induction ops as [|o ops IH]; intros w Hcodec Hops Hp Hk Hnd Hre; [done|].
  simpl in Hops, Hp. apply andb_true_iff in Hops as [Ho Hops].
  apply andb_true_iff in Ho as [Hu Hs]. apply negb_true_iff in Hu.
  apply andb_true_iff in Hp as [Hpo Hp].
  rewrite run_cons. simpl snd.
  destruct (exec_keeps_keyed o w Hu Hpo Hk Hnd) as (Hf & Hk' & Hnd').
  rewrite <- Hf. apply IH; try done. by apply exec_reload_agrees.
Qed.

(** X13. Restart. Construct a store with both requests served, then
    make any calls other than [update_book], each with its [put_object]
    served and each [add_book] given an object the mapping does not hold (a
    [Book] built for the call). A store constructed afterwards on the same
    bucket and file shows exactly what the first store shows: the same
    books under the same keys in the same order. ([json.loads] is assumed
    to invert [json.dumps].) *)
Theorem restart_sees_memory file s h (st : BookStore) (s1 : S3 blob) (h1 : Heap) ops :
  (forall v, json_loads (json_dumps v) = Parsed v) ->
  __init__ json_loads py class_token None None file s h = (Return st, s1, h1) ->
  forallb (fun o => negb (is_update o) && served o) ops = true ->
  each_call json_dumps payload_not_stored ops {| self := st; s3 := s1; heap := h1 |} = true ->
  let w' := snd (run json_dumps ops {| self := st; s3 := s1; heap := h1 |}) in
  loaded_books (__init__ json_loads py class_token None None file (s3 w') (heap w'))
  = Return (stored (heap w') (books (self w'))) /\
  book_file (self w') = file.
Proof.
  intros Hcodec Hinit Hops Hp.
  pose proof (init_load json_loads py class_token None None file s h) as Hl.
  rewrite Hinit in Hl.
  pose proof (load_books_keyed json_loads py class_token None None file s h) as Hkeyed.
  pose proof (load_books_read_only json_loads py class_token None None file s h) as Hro.
  simpl in Hkeyed, Hro.
  destruct (_load_books json_loads py class_token None None file s h) as [[[d|e] s'] h'];
    simpl in *; [|discriminate].
  injection Hl as -> -> ->.
  destruct (Hkeyed d eq_refl) as (Hk & Hnd & _). destruct Hro as (Hobj & _ & _).
  assert (Hre : reload_agrees json_loads py class_token
                  {| self := {| book_file := file; books := d |}; s3 := s'; heap := h' |}).
  { unfold reload_agrees. simpl.
    rewrite (init_loaded_ext file s' s h' h Hobj), Hinit. done. }
  destruct (run_reload_agrees ops _ Hcodec Hops Hp Hk Hnd Hre) as [Hfinal Hfile].
  simpl in *. unfold reload_agrees in Hfinal. rewrite Hfile in Hfinal. done.
Qed.

Lemma random_choice_nonempty {A : Type} (r : nat) (l : list A) :
  l <> [] -> exists x, random_choice r l = Return x /\ In x l.
Proof.
  intros Hne. unfold random_choice. destruct l as [|a l'] eqn:Hl; [done|].
  rewrite <- Hl.
  assert (Hlt : (r mod List.length l < List.length l)%nat).
  { apply Nat.mod_upper_bound. rewrite Hl. simpl. lia. }
  apply nth_error_Some in Hlt.
  destruct (nth_error l (r mod List.length l)) as [x|] eqn:E; [|done].
  exists x. split; [done|]. by apply nth_error_In in E.
Qed.

Lemma random_book_eq (r : nat) w :
  random_book r w = (random_choice r (dict_values (books (self w))), w).
Proof. reflexivity. Qed.

(** X14. [random_book] changes nothing. On an empty store it raises
    [IndexError] (the route has no guard); otherwise it returns one of the
    books [get_all_books] returns. *)
Theorem random_book_spec (r : nat) w :
  snd (random_book r w) = w /\
  (books (self w) = [] -> fst (random_book r w) = Raise (PyError "IndexError")) /\
  (books (self w) <> [] ->
     exists book, fst (random_book r w) = Return book /\
                  In book (dict_values (books (self w)))).
Proof.
  rewrite random_book_eq. cbn [fst snd]. split; [done|]. split.
  - by intros ->.
  - intros Hne. apply random_choice_nonempty.
    destruct (books (self w)); [done | discriminate].
Qed.

(** X15. [add_book] does not look whether the token it drew is a key.
    When it is, the object it was given takes the place of the object
    stored under that key: the entries before and after hold the objects
    they held and the number of books does not grow. The one object
    changed is the one given, to which the token was assigned. *)
Theorem add_book_existing_token tok fault book w :
  dict_in (Some tok) (books (self w)) = true ->
  let w' := snd (add_book json_dumps tok fault book w) in
  (exists before old after,
     books (self w) = before ++ (Some tok, old) :: after /\
     dict_in (Some tok) before = false /\
     books (self w') = before ++ (Some tok, book) :: after) /\
  heap w' = <[book := set_book_id tok (heap w !!! book)]> (heap w).
Proof.
  intros Hin.
  destruct (add_book_spec json_dumps tok fault book w) as (s' & H & _).
  simpl in *. rewrite H. simpl. split; [|done].
  destruct (dict_set_present (Some tok) book _ Hin) as (b & o & a & Hd & Hb & Hs).
  by exists b, o, a.
Qed.

End MutatorFacts.

(** * The theorems on concrete stores *)

Lemma tree_codec : forall v, tree_loads (tree_dumps v) = Parsed v.
Proof. reflexivity. Qed.

Lemma unknown_id_not_found_witness :
  dict_in (Some "invalid_id") (books (self two_books)) = false /\
  (get_book_by_id "invalid_id" two_books
     = (Raise (HTTPException 404 "Book ID invalid_id not found in database."), two_books) /\
   update_book tree_dumps None "invalid_id" 0%nat two_books
     = (Raise (HTTPException 404 "Book ID invalid_id not found in database."), two_books) /\
   delete_book tree_dumps None "invalid_id" two_books
     = (Raise (HTTPException 404 "Book ID invalid_id not found in database."), two_books)).
Proof.
  split; [reflexivity|].
  apply (unknown_id_not_found tree_dumps None "invalid_id" 0%nat two_books). reflexivity.
Defined.

Lemma get_book_by_index_range_witness :
  (exists book, nth_error (dict_values (books (self two_books))) (Z.to_nat 1) = Some book /\
                get_book_by_index 1 two_books
                = (Return (to_dict (heap two_books !!! book)), two_books)) /\
  get_book_by_index 2 two_books
    = (Raise (HTTPException 404 "book index 2 out of range (2)"), two_books) /\
  get_book_by_index (-1) two_books
    = (Raise (HTTPException 404 "book index -1 out of range (2)"), two_books).
Proof.
  split; [|split].
  - apply (proj1 (get_book_by_index_range 1 two_books)). simpl. lia.
  - apply (proj2 (get_book_by_index_range 2 two_books)). simpl. lia.
  - apply (proj2 (get_book_by_index_range (-1) two_books)). simpl. lia.
Defined.

Lemma add_book_then_get_witness :
  save_raises None = None /\
  dict_in (Some tok3) (books (self two_books)) = false /\
  fst (add_book tree_dumps tok3 None 1%nat two_books) = Return (VDict [("book-id", VStr tok3)]) /\
  books (self (snd (add_book tree_dumps tok3 None 1%nat two_books)))
    = books (self two_books) ++ [(Some tok3, 1%nat)] /\
  fst (get_book_by_id tok3 (snd (add_book tree_dumps tok3 None 1%nat two_books)))
    = Return (VDict [ ("name", VStr "Emma"); ("genre", VStr "romance");
                      ("price", VFloat 15.5%float); ("book_id", VStr tok3) ]).
Proof.
  destruct (add_book_then_get tree_dumps tok3 None 1%nat two_books) as (Hr & Hnew & _ & Hget).
  split; [reflexivity|]. split; [reflexivity|]. split; [|split].
  - apply Hr. reflexivity.
  - apply Hnew. reflexivity.
  - rewrite Hget. reflexivity.
Defined.

(** C1 as stated fails: nothing stops [uuid4().hex] from returning a
    token that is a key. The call then returns that key as the new id and
    the book that was stored under it is no longer in the store. *)
Lemma add_book_id_already_key :
  dict_in (Some tok1) (books (self two_books)) = true /\
  fst (add_book tree_dumps tok1 None 1%nat two_books) = Return (VDict [("book-id", VStr tok1)]) /\
  stored (heap two_books) (books (self two_books))
    = [(Some tok1, set_book_id tok1 dune); (Some tok2, set_book_id tok2 emma)] /\
  stored (heap (snd (add_book tree_dumps tok1 None 1%nat two_books)))
         (books (self (snd (add_book tree_dumps tok1 None 1%nat two_books))))
    = [(Some tok1, set_book_id tok1 emma); (Some tok2, set_book_id tok2 emma)].
Proof. evals. Qed.

Lemma update_book_keeps_payload_id_witness :
  dict_in (Some tok1) (books (self two_books)) = true /\
  book_id (heap two_books !!! 1%nat) <> Some tok1 /\
  Book_init typed_only class_tok (VStr "Dune Messiah") (VStr "fiction") (VFloat 12.0%float) None
    = Return (heap two_books !!! 2%nat) /\
  class_tok <> tok1 /\
  dict_get (Some tok1) (books (self (snd (update_book tree_dumps None tok1 1%nat two_books))))
    = Some 1%nat /\
  (exists stored_book,
     dict_get (Some tok1) (books (self (snd (update_book tree_dumps None tok1 1%nat two_books))))
       = Some stored_book /\
     book_id (heap (snd (update_book tree_dumps None tok1 1%nat two_books)) !!! stored_book)
       <> Some tok1) /\
  book_id (heap (snd (update_book tree_dumps None tok1 2%nat two_books)) !!! 2%nat) <> Some tok1.
Proof.
  assert (Hin : dict_in (Some tok1) (books (self two_books)) = true) by reflexivity.
  assert (He : book_id (heap two_books !!! 1%nat) <> Some tok1) by (vm_compute; discriminate).
  assert (Hi : Book_init typed_only class_tok (VStr "Dune Messiah") (VStr "fiction")
                 (VFloat 12.0%float) None = Return (heap two_books !!! 2%nat)) by by_eval.
  assert (Hc : class_tok <> tok1) by discriminate.
  destruct (update_book_keeps_payload_id tree_dumps typed_only class_tok None tok1 1%nat
              two_books Hin) as (_ & Hget & _ & Hdiff & _).
  destruct (update_book_keeps_payload_id tree_dumps typed_only class_tok None tok1 2%nat
              two_books Hin) as (_ & _ & _ & _ & Hdef).
  split; [exact Hin|]. split; [exact He|]. split; [exact Hi|]. split; [exact Hc|].
  split; [exact Hget|]. split; [exact (Hdiff He)|].
  exact (proj2 (Hdef _ _ _ Hi) Hc).
Defined.

(** C3 as stated fails for a payload built without [book_id] when the
    key is the class-default token: a store holding a book under that token
    (as a store constructed on a blob saved after such an update does) is
    updated with a payload that carries the same default, and the key and
    the stored book's [book_id] are equal. *)
Lemma update_default_payload_on_default_key :
  let w := store_of [(Some class_tok, 3%nat)] in
  let w' := snd (update_book tree_dumps None class_tok 2%nat w) in
  Book_init typed_only class_tok (VStr "Dune Messiah") (VStr "fiction") (VFloat 12.0%float) None
    = Return (heap w !!! 2%nat) /\
  dict_in (Some class_tok) (books (self w)) = true /\
  is_return (fst (update_book tree_dumps None class_tok 2%nat w)) = true /\
  dict_get (Some class_tok) (books (self w')) = Some 2%nat /\
  book_id (heap w' !!! 2%nat) = Some class_tok.
Proof. evals. Qed.

Lemma update_book_frame_witness :
  is_return (fst (update_book tree_dumps None tok1 1%nat two_books)) = true /\
  exists before old after,
    books (self two_books) = before ++ (Some tok1, old) :: after /\
    dict_in (Some tok1) before = false /\
    books (self (snd (update_book tree_dumps None tok1 1%nat two_books)))
      = before ++ (Some tok1, 1%nat) :: after /\
    heap (snd (update_book tree_dumps None tok1 1%nat two_books)) = heap two_books /\
    fst (get_all_books two_books) = Return (dict_values before ++ old :: dict_values after) /\
    fst (get_all_books (snd (update_book tree_dumps None tok1 1%nat two_books)))
      = Return (dict_values before ++ 1%nat :: dict_values after).
Proof.
  assert (Hok : is_return (fst (update_book tree_dumps None tok1 1%nat two_books)) = true)
    by by_eval.
  split; [exact Hok|].
  exact (update_book_frame tree_dumps None tok1 1%nat two_books Hok).
Defined.

Lemma persist_failure_effects_witness :
  OtherFault "EndpointConnectionError" <> ClientFault "404" /\
  dict_in (Some tok1) (books (self two_books)) = true /\
  fst (add_book tree_dumps tok3 (Some (OtherFault "EndpointConnectionError")) 0%nat two_books)
    = Raise (PyError "EndpointConnectionError") /\
  fst (update_book tree_dumps (Some (OtherFault "EndpointConnectionError")) tok1 1%nat two_books)
    = Raise (PyError "EndpointConnectionError") /\
  fst (delete_book tree_dumps (Some (OtherFault "EndpointConnectionError")) tok1 two_books)
    = Raise (PyError "EndpointConnectionError") /\
  memory_updated_blob_stale tree_dumps two_books
    (snd (delete_book tree_dumps (Some (OtherFault "EndpointConnectionError")) tok1 two_books))
    [(Some tok2, 5%nat)] (heap two_books) /\
  fst (delete_book tree_dumps (Some (ClientFault "404")) tok1 two_books)
    = Return (VDict [("message", VStr "The book has been deleted")]).
Proof.
  assert (Hf : OtherFault "EndpointConnectionError" <> ClientFault "404") by discriminate.
  assert (Hin : dict_in (Some tok1) (books (self two_books)) = true) by reflexivity.
  destruct (persist_failure_effects tree_dumps (OtherFault "EndpointConnectionError")
              tok3 tok1 0%nat 1%nat two_books) as ([[Ha _] _] & Hu & Hd).
  destruct (persist_failure_effects tree_dumps (ClientFault "404")
              tok3 tok1 0%nat 1%nat two_books) as (_ & _ & Hd404).
  destruct (Hu Hin) as [[Hu1 _] _]. destruct (Hd Hin) as [[Hd1 _] Hd2].
  destruct (Hd404 Hin) as [[_ Hd3] _].
  split; [exact Hf|]. split; [exact Hin|].
  split; [exact (Ha Hf)|]. split; [exact (Hu1 Hf)|]. split; [exact (Hd1 Hf)|].
  split; [exact Hd2|]. exact (Hd3 eq_refl).
Defined.

(** C4 as stated fails: a [ClientError] coded ["404"] raised by the
    [put_object] does not reach the caller. [add_book] returns the new id
    as if the book had been saved, and the bucket holds no blob. *)
Lemma persist_404_not_propagated :
  fst (add_book tree_dumps tok3 (Some (ClientFault "404")) 0%nat two_books)
    = Return (VDict [("book-id", VStr tok3)]) /\
  objects (s3 (snd (add_book tree_dumps tok3 (Some (ClientFault "404")) 0%nat two_books)))
    !! BOOKS_FILE = None.
Proof. evals. Qed.

Lemma default_book_id_shared_witness :
  Book_init typed_only class_tok (VStr "Dune Messiah") (VStr "fiction") (VFloat 12.0%float) None
    = Return dune2 /\
  Book_init typed_only class_tok (VStr "Emma, revised") (VStr "romance") (VFloat 16.0%float) None
    = Return emma2 /\
  book_id dune2 = Some class_tok /\ book_id emma2 = book_id dune2.
Proof.
  split; [reflexivity|]. split; [reflexivity|].
  apply (default_book_id_shared typed_only class_tok
           (VStr "Dune Messiah") (VStr "fiction") (VFloat 12.0%float)
           (VStr "Emma, revised") (VStr "romance") (VFloat 16.0%float));
    reflexivity.
Defined.

(** C5 fails on the code. Two books are added and each is then updated
    with a payload built without [book_id], so both stored books carry the
    class default while they sit under their own keys. [_save_books] writes
    the two records; a store constructed on that blob keys them by the
    [book_id] they carry, and holds one book. *)
Theorem reload_after_updates_loses_a_book :
  let tr := fst (run tree_dumps two_updates (store_of [])) in
  let w := snd (run tree_dumps two_updates (store_of [])) in
  forallb (fun e => is_return (snd e)) tr = true /\
  stored (heap w) (books (self w)) = [(Some tok1, dune2); (Some tok2, emma2)] /\
  objects (s3 w) !! BOOKS_FILE = Some (VList [to_dict dune2; to_dict emma2]) /\
  loaded_books (__init__ tree_loads typed_only class_tok None None BOOKS_FILE (s3 w) (heap w))
    = Return [(Some class_tok, emma2)].
Proof. evals. Qed.

Lemma index_follows_insertion_order_witness :
  let w := store_of [] in
  let w' := snd (run tree_dumps token_drawn_again w) in
  forallb (fun o => is_add o || is_delete o) token_drawn_again = true /\
  forallb (fun e => is_return (snd e)) (fst (run tree_dumps token_drawn_again w)) = true /\
  each_call tree_dumps token_not_key token_drawn_again w = true /\
  dict_values (books (self w')) = [1%nat; 1%nat] /\
  same_content (heap w' !!! 1%nat) emma /\
  get_book_by_index 0 w' = (Return (to_dict (set_book_id tok1 emma)), w') /\
  get_book_by_index 1 w' = (Return (to_dict (set_book_id tok1 emma)), w').
Proof.
  intros w w'.
  assert (H1 : forallb (fun o => is_add o || is_delete o) token_drawn_again = true)
    by reflexivity.
  assert (H2 : forallb (fun e => is_return (snd e))
                 (fst (run tree_dumps token_drawn_again w)) = true) by by_eval.
  assert (H3 : each_call tree_dumps token_not_key token_drawn_again w = true) by by_eval.
  destruct (index_follows_insertion_order tree_dumps token_drawn_again BOOKS_FILE empty_s3
              shelf H1 H2 H3) as [Hv Hidx].
  assert (E0 : nth_error (List.map snd (added_not_deleted token_drawn_again [])) 0
               = Some 1%nat) by reflexivity.
  assert (E1 : nth_error (List.map snd (added_not_deleted token_drawn_again [])) 1
               = Some 1%nat) by reflexivity.
  assert (Hh : heap w' !!! 1%nat = set_book_id tok1 emma) by by_eval.
  destruct (Hidx 0%nat 1%nat E0) as [Hc Hg0]. destruct (Hidx 1%nat 1%nat E1) as [_ Hg1].
  change (heap (snd (run tree_dumps token_drawn_again
            {| self := {| book_file := BOOKS_FILE; books := [] |};
               s3 := empty_s3; heap := shelf |})) !!! 1%nat)
    with (heap w' !!! 1%nat) in Hg0, Hg1.
  rewrite Hh in Hg0, Hg1.
  split; [exact H1|]. split; [exact H2|]. split; [exact H3|].
  split; [exact Hv|]. split; [exact Hc|]. split; [exact Hg0 | exact Hg1].
Defined.

(** C7 as stated fails: when [uuid4().hex] returns in an [add_book] the
    token under which a book is stored, both calls return normally, the
    second book takes the place of the first, and position 0 holds the
    second object although the first was added first and never deleted. *)
Lemma repeated_token_breaks_order :
  let w' := snd (run tree_dumps repeated_token (store_of [])) in
  forallb (fun e => is_return (snd e)) (fst (run tree_dumps repeated_token (store_of []))) = true /\
  nth_error (List.map snd (added_not_deleted repeated_token [])) 0 = Some 0%nat /\
  dict_values (books (self w')) = [1%nat] /\
  fst (get_book_by_index 0 w') = Return (to_dict (set_book_id tok1 emma)) /\
  to_dict (set_book_id tok1 emma) <> to_dict (heap w' !!! 0%nat).
Proof.
  cbv zeta. split; [by_eval|]. split; [by_eval|]. split; [by_eval|]. split; [by_eval|].
  vm_compute. discriminate.
Qed.



(** * The further properties on concrete stores *)

Lemma init_missing_blob_witness :
  (None = Some (ClientFault "404") \/
   ((None : option s3_fault) = None /\ objects empty_s3 !! BOOKS_FILE = None)) /\
  __init__ tree_loads typed_only class_tok None None BOOKS_FILE empty_s3 shelf
  = (Return {| book_file := BOOKS_FILE; books := [] |},
     {| objects := objects empty_s3;
        calls := calls empty_s3 ++ [HeadObject BUCKET BOOKS_FILE] |},
     shelf).
Proof.
  assert (H : None = Some (ClientFault "404") \/
              ((None : option s3_fault) = None /\ objects empty_s3 !! BOOKS_FILE = None))
    by (right; split; reflexivity).
  split; [exact H|].
  exact (init_missing_blob tree_loads typed_only class_tok None None BOOKS_FILE empty_s3
           shelf H).
Defined.

Lemma init_fault_handling_witness :
  ClientFault "AccessDenied" <> ClientFault "404" /\
  is_Some (objects one_book_bucket !! BOOKS_FILE) /\
  fst (fst (__init__ tree_loads typed_only class_tok (Some (ClientFault "AccessDenied")) None
              BOOKS_FILE one_book_bucket shelf))
    = Raise (ClientError "AccessDenied") /\
  fst (fst (__init__ tree_loads typed_only class_tok None (Some (ClientFault "AccessDenied"))
              BOOKS_FILE one_book_bucket shelf))
    = Raise (ClientError "AccessDenied") /\
  fst (fst (__init__ tree_loads typed_only class_tok None (Some (ClientFault "404"))
              BOOKS_FILE one_book_bucket shelf))
    = Return {| book_file := BOOKS_FILE; books := [] |}.
Proof.
  assert (Hf : ClientFault "AccessDenied" <> ClientFault "404") by discriminate.
  assert (Hb : is_Some (objects one_book_bucket !! BOOKS_FILE)) by (eexists; by_eval).
  destruct (init_fault_handling tree_loads typed_only class_tok (ClientFault "AccessDenied")
              None BOOKS_FILE one_book_bucket shelf) as [Hhead Hget].
  destruct (init_fault_handling tree_loads typed_only class_tok (ClientFault "404") None
              BOOKS_FILE one_book_bucket shelf) as [_ Hget404].
  split; [exact Hf|]. split; [exact Hb|]. split; [exact (Hhead Hf)|].
  split; [exact (proj1 (Hget Hb) Hf) | exact (proj2 (Hget404 Hb) eq_refl)].
Defined.

Lemma init_never_writes_witness :
  shelf !! 4%nat = Some (set_book_id tok1 dune) /\
  snd (__init__ tree_loads typed_only class_tok None None BOOKS_FILE one_book_bucket shelf)
    !! 4%nat = Some (set_book_id tok1 dune).
Proof.
  assert (H : shelf !! 4%nat = Some (set_book_id tok1 dune)) by by_eval.
  split; [exact H|].
  exact (proj2 (proj2 (init_never_writes tree_loads typed_only class_tok None None
                         BOOKS_FILE one_book_bucket shelf)) _ _ H).
Defined.

Lemma init_keyed_distinct_witness :
  let x := __init__ tree_loads typed_only class_tok None None BOOKS_FILE one_book_bucket shelf in
  fst (fst x) = Return {| book_file := BOOKS_FILE; books := [(Some tok1, fresh_ref shelf)] |} /\
  keyed_by_book_id (snd x) [(Some tok1, fresh_ref shelf)] = true /\
  distinct (dict_keys [(Some tok1, fresh_ref shelf)]) = true.
Proof.
  intros x.
  assert (H : fst (fst x)
              = Return {| book_file := BOOKS_FILE; books := [(Some tok1, fresh_ref shelf)] |})
    by by_eval.
  split; [exact H|].
  exact (proj2 (init_keyed_distinct tree_loads typed_only class_tok None None BOOKS_FILE
                  one_book_bucket shelf _ H)).
Defined.

Lemma Book_init_genre_literal_witness :
  In "romance" GENRES /\ ~ In "invalid_genre" GENRES /\
  (exists g', genre_str g' = "romance" /\
     Book_init typed_only class_tok (VStr "Book 1") (VStr "romance") (VFloat 10.0%float) None
     = Return (mkBook "Book 1" g' 10.0%float (Some class_tok))) /\
  Book_init typed_only class_tok (VStr "Book 1") (VStr "invalid_genre") (VFloat 10.0%float) None
  = Raise (PyError "ValidationError").
Proof.
  assert (Hin : In "romance" GENRES) by (simpl; tauto).
  assert (Hout : ~ In "invalid_genre" GENRES).
  { simpl. intros [H|[H|[H|[H|[H|[H|[]]]]]]]; discriminate H. }
  split; [exact Hin|]. split; [exact Hout|].
  split.
  - exact (proj1 (Book_init_genre_literal typed_only class_tok "Book 1" "romance"
                    10.0%float) Hin).
  - exact (proj2 (Book_init_genre_literal typed_only class_tok "Book 1" "invalid_genre"
                    10.0%float) Hout).
Defined.

Lemma init_bad_record_witness :
  exists cls,
    fst (fst (__init__ tree_loads typed_only class_tok None None BOOKS_FILE
                bad_record_bucket shelf))
    = Raise (PyError cls).
Proof.
  apply (init_bad_record tree_loads typed_only class_tok BOOKS_FILE bad_record_bucket shelf
           (VList [ to_dict (set_book_id tok1 dune);
                    VDict [("name", VStr "Emma"); ("genre", VStr "romance");
                           ("book_id", VStr tok2)] ])
           [ to_dict (set_book_id tok1 dune);
             VDict [("name", VStr "Emma"); ("genre", VStr "romance");
                    ("book_id", VStr tok2)] ]
           [("name", VStr "Emma"); ("genre", VStr "romance"); ("book_id", VStr tok2)]).
  - by_eval.
  - reflexivity.
  - right. left. reflexivity.
  - right. right. left. reflexivity.
Defined.

Lemma init_unreadable_blob_witness :
  objects one_book_bucket !! BOOKS_FILE = Some (VList [to_dict (set_book_id tok1 dune)]) /\
  objects {| objects := {[ BOOKS_FILE := VInt 3 ]}; calls := [] |} !! BOOKS_FILE
    = Some (VInt 3) /\
  fst (fst (__init__ (fun _ : value => NotUtf8) typed_only class_tok None None BOOKS_FILE
              one_book_bucket shelf))
    = Raise (PyError "UnicodeDecodeError") /\
  fst (fst (__init__ (fun _ : value => NotJson) typed_only class_tok None None BOOKS_FILE
              one_book_bucket shelf))
    = Raise (PyError "JSONDecodeError") /\
  fst (fst (__init__ tree_loads typed_only class_tok None None BOOKS_FILE
              {| objects := {[ BOOKS_FILE := VInt 3 ]}; calls := [] |} shelf))
    = Raise (PyError "TypeError").
Proof.
  assert (H1 : objects one_book_bucket !! BOOKS_FILE
               = Some (VList [to_dict (set_book_id tok1 dune)])) by by_eval.
  assert (H2 : objects {| objects := {[ BOOKS_FILE := VInt 3 ]}; calls := [] |} !! BOOKS_FILE
               = Some (VInt 3)) by by_eval.
  split; [exact H1|]. split; [exact H2|]. split; [|split].
  - exact (proj1 (proj1 (init_unreadable_blob (fun _ : value => NotUtf8) typed_only class_tok
                           BOOKS_FILE one_book_bucket shelf _ H1) eq_refl)).
  - exact (proj1 (proj1 (proj2 (init_unreadable_blob (fun _ : value => NotJson) typed_only
                                  class_tok BOOKS_FILE one_book_bucket shelf _ H1)) eq_refl)).
  - exact (proj1 (proj2 (proj2 (init_unreadable_blob tree_loads typed_only class_tok
                                  BOOKS_FILE {| objects := {[ BOOKS_FILE := VInt 3 ]};
                                                calls := [] |} shelf _ H2))
                    (VInt 3) eq_refl eq_refl)).
Defined.

Lemma save_books_served_witness :
  "other.json" <> book_file (self two_books) /\
  objects (s3 (snd (_save_books tree_dumps None two_books))) !! "other.json"
  = objects (s3 two_books) !! "other.json".
Proof.
  assert (H : "other.json" <> book_file (self two_books)) by discriminate.
  split; [exact H|].
  exact (proj2 (proj2 (proj2 (proj2 (save_books_served tree_dumps two_books))))
           "other.json" H).
Defined.

Lemma served_mutation_in_sync_witness :
  let o := AddBook tok3 None 0%nat in
  let w' := snd (exec tree_dumps o two_books) in
  is_add o || is_update o || is_delete o = true /\ served o = true /\
  is_return (fst (exec tree_dumps o two_books)) = true /\
  objects (s3 w') !! book_file (self w')
  = Some (VList (List.map (fun book => to_dict (heap w' !!! book))
                   (dict_values (books (self w'))))).
Proof.
  intros o w'.
  assert (H1 : is_add o || is_update o || is_delete o = true) by reflexivity.
  assert (H2 : served o = true) by reflexivity.
  assert (H3 : is_return (fst (exec tree_dumps o two_books)) = true) by by_eval.
  split; [exact H1|]. split; [exact H2|]. split; [exact H3|].
  exact (served_mutation_in_sync tree_dumps o two_books H1 H2 H3).
Defined.

Lemma delete_then_get_witness :
  distinct (dict_keys (books (self two_books))) = true /\
  dict_in (Some tok1) (books (self two_books)) = true /\
  fst (get_book_by_id tok1
         (snd (delete_book tree_dumps (Some (OtherFault "EndpointConnectionError"))
                 tok1 two_books)))
  = Raise (HTTPException 404
      "Book ID 0f8fad5bd9cb469fa16570867728950e not found in database.").
Proof.
  assert (H1 : distinct (dict_keys (books (self two_books))) = true) by by_eval.
  assert (H2 : dict_in (Some tok1) (books (self two_books)) = true) by reflexivity.
  split; [exact H1|]. split; [exact H2|].
  exact (proj2 (proj2 (delete_then_get tree_dumps
                         (Some (OtherFault "EndpointConnectionError")) tok1 two_books H1 H2))).
Defined.

Lemma other_ids_untouched_witness :
  tok2 <> tok3 /\ tok2 <> tok1 /\
  dict_get (Some tok2) (books (self two_books)) <> Some 0%nat /\
  fst (get_book_by_id tok2 (snd (add_book tree_dumps tok3 None 0%nat two_books)))
    = fst (get_book_by_id tok2 two_books) /\
  fst (get_book_by_id tok2 (snd (update_book tree_dumps None tok1 1%nat two_books)))
    = fst (get_book_by_id tok2 two_books) /\
  fst (get_book_by_id tok2 (snd (delete_book tree_dumps None tok1 two_books)))
    = fst (get_book_by_id tok2 two_books).
Proof.
  assert (H3 : tok2 <> tok3) by discriminate.
  assert (H1 : tok2 <> tok1) by discriminate.
  assert (H0 : dict_get (Some tok2) (books (self two_books)) <> Some 0%nat)
    by (vm_compute; discriminate).
  destruct (other_ids_untouched tree_dumps tok3 None tok1 tok2 0%nat 1%nat two_books)
    as (Ha & Hu & Hd).
  split; [exact H3|]. split; [exact H1|]. split; [exact H0|].
  split; [exact (Ha H3 H0)|]. split; [exact (Hu H1) | exact (Hd H1)].
Defined.

Lemma add_book_stored_object_witness :
  dict_get (Some tok1) (books (self two_books)) = Some 4%nat /\ tok1 <> tok3 /\
  stored (heap (snd (add_book tree_dumps tok3 None 4%nat two_books)))
         (books (self (snd (add_book tree_dumps tok3 None 4%nat two_books))))
    = [ (Some tok1, set_book_id tok3 dune); (Some tok2, set_book_id tok2 emma);
        (Some tok3, set_book_id tok3 dune) ] /\
  fst (get_book_by_id tok1 (snd (add_book tree_dumps tok3 None 4%nat two_books)))
    = Return (to_dict (set_book_id tok3 (heap two_books !!! 4%nat))).
Proof.
  assert (H1 : dict_get (Some tok1) (books (self two_books)) = Some 4%nat) by reflexivity.
  assert (H2 : tok1 <> tok3) by discriminate.
  split; [exact H1|]. split; [exact H2|]. split; [by_eval|].
  exact (proj2 (proj2 (add_book_stored_object tree_dumps tok3 None tok1 4%nat two_books
                         H1 H2))).
Defined.

Lemma run_keeps_keyed_witness :
  forallb (fun o => negb (is_update o)) repeated_token = true /\
  each_call tree_dumps payload_not_stored repeated_token two_books = true /\
  keyed_by_book_id (heap two_books) (books (self two_books)) = true /\
  distinct (dict_keys (books (self two_books))) = true /\
  keyed_by_book_id (heap (snd (run tree_dumps repeated_token two_books)))
    (books (self (snd (run tree_dumps repeated_token two_books)))) = true /\
  distinct (dict_keys (books (self (snd (run tree_dumps repeated_token two_books))))) = true.
Proof.
  assert (H1 : forallb (fun o => negb (is_update o)) repeated_token = true) by reflexivity.
  assert (H0 : each_call tree_dumps payload_not_stored repeated_token two_books = true)
    by by_eval.
  assert (H2 : keyed_by_book_id (heap two_books) (books (self two_books)) = true) by by_eval.
  assert (H3 : distinct (dict_keys (books (self two_books))) = true) by by_eval.
  split; [exact H1|]. split; [exact H0|]. split; [exact H2|]. split; [exact H3|].
  exact (run_keeps_keyed tree_dumps repeated_token two_books H1 H0 H2 H3).
Defined.

(** Without the condition on the objects given to [add_book], the mapping
    does not stay keyed by [book_id]: one object added twice sits under its
    first token with the second token as [book_id]. *)
Lemma same_object_twice_not_keyed :
  let w' := snd (run tree_dumps same_object_twice (store_of [])) in
  stored (heap w') (books (self w'))
    = [(Some tok1, set_book_id tok2 dune); (Some tok2, set_book_id tok2 dune)] /\
  keyed_by_book_id (heap w') (books (self w')) = false.
Proof. evals. Qed.

Lemma restart_sees_memory_witness :
  let st := {| book_file := BOOKS_FILE; books := [(Some tok1, fresh_ref shelf)] |} in
  let s1 := {| objects := objects one_book_bucket;
               calls := [HeadObject BUCKET BOOKS_FILE; GetObject BUCKET BOOKS_FILE] |} in
  let h1 := <[fresh_ref shelf := set_book_id tok1 dune]> shelf in
  let w' := snd (run tree_dumps served_calls {| self := st; s3 := s1; heap := h1 |}) in
  __init__ tree_loads typed_only class_tok None None BOOKS_FILE one_book_bucket shelf
    = (Return st, s1, h1) /\
  forallb (fun o => negb (is_update o) && served o) served_calls = true /\
  each_call tree_dumps payload_not_stored served_calls {| self := st; s3 := s1; heap := h1 |}
    = true /\
  stored (heap w') (books (self w'))
    = [(Some tok2, set_book_id tok2 emma); (Some tok3, set_book_id tok3 dune)] /\
  loaded_books (__init__ tree_loads typed_only class_tok None None BOOKS_FILE (s3 w') (heap w'))
    = Return (stored (heap w') (books (self w'))).
Proof.
  intros st s1 h1 w'.
  assert (H1 : __init__ tree_loads typed_only class_tok None None BOOKS_FILE one_book_bucket
                 shelf = (Return st, s1, h1)) by by_eval.
  assert (H2 : forallb (fun o => negb (is_update o) && served o) served_calls = true)
    by reflexivity.
  assert (H3 : each_call tree_dumps payload_not_stored served_calls
                 {| self := st; s3 := s1; heap := h1 |} = true) by by_eval.
  split; [exact H1|]. split; [exact H2|]. split; [exact H3|]. split; [by_eval|].
  exact (proj1 (restart_sees_memory tree_dumps tree_loads typed_only class_tok BOOKS_FILE
                  one_book_bucket shelf st s1 h1 served_calls tree_codec
                  H1 H2 H3)).
Defined.

Lemma random_book_spec_witness :
  books (self (store_of [])) = [] /\
  books (self two_books) <> [] /\
  fst (random_book 7 (store_of [])) = Raise (PyError "IndexError") /\
  exists book, fst (random_book 7 two_books) = Return book /\
               In book (dict_values (books (self two_books))).
Proof.
  assert (H1 : books (self (store_of [])) = []) by reflexivity.
  assert (H2 : books (self two_books) <> []) by discriminate.
  split; [exact H1|]. split; [exact H2|].
  split.
  - exact (proj1 (proj2 (random_book_spec 7 (store_of []))) H1).
  - exact (proj2 (proj2 (random_book_spec 7 two_books)) H2).
Defined.

Lemma add_book_existing_token_witness :
  dict_in (Some tok2) (books (self two_books)) = true /\
  exists before old after,
    books (self two_books) = before ++ (Some tok2, old) :: after /\
    dict_in (Some tok2) before = false /\
    books (self (snd (add_book tree_dumps tok2 None 0%nat two_books)))
      = before ++ (Some tok2, 0%nat) :: after.
Proof.
  assert (H : dict_in (Some tok2) (books (self two_books)) = true) by reflexivity.
  split; [exact H|].
  exact (proj1 (add_book_existing_token tree_dumps tok2 None 0%nat two_books H)).
Defined.
